(** * Adafruit_FXOS8700: a shallow embedding of the driver and its properties

    The development follows [Adafruit_FXOS8700.h] (enumerations, rate tables,
    driver fields) and [Adafruit_FXOS8700.cpp] (initialisation, standby
    control, configuration setters, combined and single-sensor reads).

    The I2C transport (Adafruit_BusIO), the Arduino clock ([millis], [delay])
    and the unified-sensor record layout (Adafruit_Sensor.h) are external to
    the driver: the bus and the clock are an environment [Env] the driver
    runs against, every call into it being recorded in a trace. *)

From Stdlib Require Import ZArith List Bool Lia QArith Qabs.
From Stdlib Require Import Strings.Byte.
From Stdlib Require Import Floats.SpecFloat.
From ExtLib Require Import Structures.Monad.
Import ListNotations.
Import MonadNotation.
Local Open Scope Z_scope.
Local Open Scope monad_scope.

(* ===================================================================== *)
(** * Fixed-width integers and bytes *)
(* ===================================================================== *)

(** A [uint8_t] read from the bus, as an integer in [0, 255]. *)
Definition byte_val (b : byte) : Z := Z.of_N (Byte.to_N b).

(** Conversion to [int16_t]: the value modulo 2^16, taken in [-2^15, 2^15). *)
Definition int16 (v : Z) : Z := (v + 32768) mod 65536 - 32768.

(** Conversion to [uint32_t]: the value modulo 2^32. *)
Definition uint32 (v : Z) : Z := v mod 4294967296.

(** An integer type of C, by signedness and width in bits, and the
    conversion of a value to it: the value modulo 2^width, taken in
    [-2^(width-1), 2^(width-1)) when the type is signed. *)
Record c_int : Type := mkInt {
  is_signed : bool;
  width : Z
}.

Definition convert (t : c_int) (v : Z) : Z :=
  let u := v mod 2 ^ width t in
  if is_signed t && (2 ^ (width t - 1) <=? u) then u - 2 ^ width t else u.

Definition int32_t : c_int := mkInt true 32.

(** [(int16_t)((msb << 8) | lsb)]: the bytes are promoted to [int] first. *)
Definition word16 (msb lsb : byte) : Z :=
  int16 (Z.lor (Z.shiftl (byte_val msb) 8) (byte_val lsb)).

(** [buffer[i]] of a [uint8_t buffer[13]]. *)
Definition buf (buffer : list byte) (i : nat) : byte := nth i buffer x00.

(* ===================================================================== *)
(** * Single-precision floats *)
(* ===================================================================== *)

(** The C type [float] is IEEE-754 binary32 with rounding to nearest even,
    given by the Standard Library's executable specification of floats at
    precision 24 and maximal exponent 128. *)
Module F32.

Definition prec : Z := 24.
Definition emax : Z := 128.

Definition t : Type := spec_float.

Definition zero : t := S754_zero false.

(** Conversion of an integer to [float]. *)
Definition of_Z (v : Z) : t := binary_normalize prec emax v 0 false.

Definition mul (a b : t) : t := SFmul prec emax a b.
Definition div (a b : t) : t := SFdiv prec emax a b.
Definition opp (a : t) : t := SFopp a.

(** A decimal literal with the suffix F whose value is [num / den], both
    small enough to be floats themselves: the quotient rounded once. *)
Definition lit (num den : Z) : t := div (of_Z num) (of_Z den).

(** Conversion of a [float] to an integer type: the fraction is dropped. *)
Definition trunc (a : t) : Z :=
  match a with
  | S754_finite s m e =>
      let v := if (0 <=? e) then Z.pos m * 2 ^ e else Z.pos m / 2 ^ (- e) in
      if s then - v else v
  | _ => 0
  end.

(** The rational number a finite [float] stands for. *)
Definition to_Q (a : t) : Q :=
  match a with
  | S754_finite s m e =>
      let v := if s then Z.neg m else Z.pos m in
      if (0 <=? e) then inject_Z (v * 2 ^ e)
      else Qmake v (Z.to_pos (2 ^ (- e)))
  | _ => 0%Q
  end.

End F32.

(* ===================================================================== *)
(** * Adafruit_FXOS8700.h *)
(* ===================================================================== *)

(** Device ID for this sensor (used as sanity check during init). *)
Definition FXOS8700_ID : Z := 0xC7.

(** Raw register addresses used to communicate with the sensor. *)
Definition FXOS8700_REGISTER_STATUS : Z := 0x00.
Definition FXOS8600_REGISTER_SYSMOD : Z := 0x0B.
Definition FXOS8700_REGISTER_WHO_AM_I : Z := 0x0D.
Definition FXOS8700_REGISTER_XYZ_DATA_CFG : Z := 0x0E.
Definition FXOS8700_REGISTER_CTRL_REG1 : Z := 0x2A.
Definition FXOS8700_REGISTER_CTRL_REG2 : Z := 0x2B.
Definition FXOS8700_REGISTER_MCTRL_REG1 : Z := 0x5B.
Definition FXOS8700_REGISTER_MCTRL_REG2 : Z := 0x5C.

(** System status, the 2-bit sysmod[1:0] field. *)
Definition STANDBY : Z := 0x00.
Definition WAKE : Z := 0x01.
Definition SLEEP : Z := 0x02.

Inductive fxos8700SensorMode_t : Type :=
| ACCEL_ONLY_MODE
| MAG_ONLY_MODE
| HYBRID_MODE.

Definition mode_code (m : fxos8700SensorMode_t) : Z :=
  match m with
  | ACCEL_ONLY_MODE => 0
  | MAG_ONLY_MODE => 1
  | HYBRID_MODE => 3
  end.

Definition mode_eqb (a b : fxos8700SensorMode_t) : bool :=
  mode_code a =? mode_code b.

Inductive fxos8700ODR_t : Type :=
| ODR_800HZ
| ODR_400HZ
| ODR_200HZ
| ODR_100HZ
| ODR_50HZ
| ODR_25HZ
| ODR_12_5HZ
| ODR_6_25HZ
| ODR_3_125HZ
| ODR_1_5625HZ
| ODR_0_7813HZ.

Definition odr_code (r : fxos8700ODR_t) : Z :=
  match r with
  | ODR_800HZ => 0
  | ODR_400HZ => 1
  | ODR_200HZ => 2
  | ODR_100HZ => 3
  | ODR_50HZ => 4
  | ODR_25HZ => 5
  | ODR_12_5HZ => 6
  | ODR_6_25HZ => 7
  | ODR_3_125HZ => 8
  | ODR_1_5625HZ => 9
  | ODR_0_7813HZ => 10
  end.

Definition odr_eqb (a b : fxos8700ODR_t) : bool := odr_code a =? odr_code b.

(** Output data rates available for accel/mag-only modes. *)
Definition ACCEL_MAG_ONLY_AVAILABLE_ODRs : list fxos8700ODR_t :=
  [ODR_800HZ; ODR_400HZ; ODR_200HZ; ODR_100HZ;
   ODR_50HZ; ODR_12_5HZ; ODR_6_25HZ; ODR_1_5625HZ].

(** Output data rates available for hybrid mode. *)
Definition HYBRID_AVAILABLE_ODRs : list fxos8700ODR_t :=
  [ODR_400HZ; ODR_200HZ; ODR_100HZ; ODR_50HZ;
   ODR_25HZ; ODR_6_25HZ; ODR_3_125HZ; ODR_0_7813HZ].

(** Settings to write to the dr[2:0] bits in CTRL_REG1, by table index. *)
Definition ODR_drBits : list Z :=
  [0x00; 0x08; 0x10; 0x18; 0x20; 0x28; 0x30; 0x38].

Inductive fxos8700AccelRange_t : Type :=
| ACCEL_RANGE_2G
| ACCEL_RANGE_4G
| ACCEL_RANGE_8G.

Definition range_code (r : fxos8700AccelRange_t) : Z :=
  match r with
  | ACCEL_RANGE_2G => 0
  | ACCEL_RANGE_4G => 1
  | ACCEL_RANGE_8G => 2
  end.

Inductive fxos8700MagOSR_t : Type :=
| MAG_OSR_0
| MAG_OSR_1
| MAG_OSR_2
| MAG_OSR_3
| MAG_OSR_4
| MAG_OSR_5
| MAG_OSR_6
| MAG_OSR_7.

Definition osr_code (r : fxos8700MagOSR_t) : Z :=
  match r with
  | MAG_OSR_0 => 0
  | MAG_OSR_1 => 1
  | MAG_OSR_2 => 2
  | MAG_OSR_3 => 3
  | MAG_OSR_4 => 4
  | MAG_OSR_5 => 5
  | MAG_OSR_6 => 6
  | MAG_OSR_7 => 7
  end.

(** Raw (integer) values from a 3dof sensor: three [int16_t]. *)
Record fxos8700RawData_t : Type := mkRaw {
  raw_x : Z;
  raw_y : Z;
  raw_z : Z
}.

(** The fields of the class [Adafruit_FXOS8700].  [i2c_dev] is the pointer
    to the bus interface: [None] is [NULL], [Some addr] a device object
    bound to the address [addr]. *)
Record Driver : Type := mkDriver {
  _mode : fxos8700SensorMode_t;
  _range : fxos8700AccelRange_t;
  _rate : fxos8700ODR_t;
  _ratio : fxos8700MagOSR_t;
  _accelSensorID : Z;
  _magSensorID : Z;
  accel_raw : fxos8700RawData_t;
  mag_raw : fxos8700RawData_t;
  i2c_dev : option Z
}.

Definition set_mode (m : fxos8700SensorMode_t) (d : Driver) : Driver :=
  mkDriver m (_range d) (_rate d) (_ratio d) (_accelSensorID d)
    (_magSensorID d) (accel_raw d) (mag_raw d) (i2c_dev d).

Definition set_range (r : fxos8700AccelRange_t) (d : Driver) : Driver :=
  mkDriver (_mode d) r (_rate d) (_ratio d) (_accelSensorID d)
    (_magSensorID d) (accel_raw d) (mag_raw d) (i2c_dev d).

Definition set_rate (r : fxos8700ODR_t) (d : Driver) : Driver :=
  mkDriver (_mode d) (_range d) r (_ratio d) (_accelSensorID d)
    (_magSensorID d) (accel_raw d) (mag_raw d) (i2c_dev d).

Definition set_ratio (r : fxos8700MagOSR_t) (d : Driver) : Driver :=
  mkDriver (_mode d) (_range d) (_rate d) r (_accelSensorID d)
    (_magSensorID d) (accel_raw d) (mag_raw d) (i2c_dev d).

Definition set_accel_raw (v : fxos8700RawData_t) (d : Driver) : Driver :=
  mkDriver (_mode d) (_range d) (_rate d) (_ratio d) (_accelSensorID d)
    (_magSensorID d) v (mag_raw d) (i2c_dev d).

Definition set_mag_raw (v : fxos8700RawData_t) (d : Driver) : Driver :=
  mkDriver (_mode d) (_range d) (_rate d) (_ratio d) (_accelSensorID d)
    (_magSensorID d) (accel_raw d) v (i2c_dev d).

Definition set_i2c_dev (p : option Z) (d : Driver) : Driver :=
  mkDriver (_mode d) (_range d) (_rate d) (_ratio d) (_accelSensorID d)
    (_magSensorID d) (accel_raw d) (mag_raw d) p.

(** The constructor: the two identifiers, and the in-class initialisers of
    the header for the configuration.  The raw samples are not initialised
    by the constructor; [raw0] stands for whatever they hold. *)
Definition Adafruit_FXOS8700 (accelSensorID magSensorID : Z)
    (raw0 : fxos8700RawData_t) : Driver :=
  mkDriver HYBRID_MODE ACCEL_RANGE_2G ODR_100HZ MAG_OSR_7
    accelSensorID magSensorID raw0 raw0 None.

(* ===================================================================== *)
(** * The unified sensor event (Adafruit_Sensor.h) *)
(* ===================================================================== *)

(** Modelled from the spec: the record [sensors_event_t] of
    Adafruit_Sensor.h, which is not part of the repository.  The spec gives
    its schema as identity, type tag, timestamp and a 3-vector of
    floating-point values; [version] is the other member the driver
    assigns.  [acceleration] and [magnetic] are two names of the one
    3-vector.  [version], [sensor_id] and [type] hold the value assigned to
    them; what [timestamp] holds after an assignment is decided by the type
    Adafruit_Sensor.h gives that member, see [timestamp_type] below. *)
Record sensors_vec_t : Type := mkVec {
  vec_x : F32.t;
  vec_y : F32.t;
  vec_z : F32.t
}.

Record sensors_event_t : Type := mkEvent {
  version : Z;
  sensor_id : Z;
  type : Z;
  timestamp : Z;
  data : sensors_vec_t
}.

Definition acceleration (e : sensors_event_t) : sensors_vec_t := data e.
Definition magnetic (e : sensors_event_t) : sensors_vec_t := data e.

(** Modelled from the spec: the macro [SENSORS_GRAVITY_STANDARD] of
    Adafruit_Sensor.h, which is not part of the repository; the spec gives
    standard gravity as 9.80665. *)
Definition SENSORS_GRAVITY_STANDARD : F32.t := F32.lit 980665 100000.

(** [memset(event, 0, sizeof(sensors_event_t))]. *)
Definition zeroed_event : sensors_event_t :=
  mkEvent 0 0 0 0 (mkVec F32.zero F32.zero F32.zero).

(* ===================================================================== *)
(** * Adafruit_FXOS8700.cpp: scale constants *)
(* ===================================================================== *)

(** Macro for mg per LSB at +/- 2g sensitivity (1 LSB = 0.000244mg). *)
Definition ACCEL_MG_LSB_2G : F32.t := F32.lit 244 1000000.
(** Macro for mg per LSB at +/- 4g sensitivity (1 LSB = 0.000488mg). *)
Definition ACCEL_MG_LSB_4G : F32.t := F32.lit 488 1000000.
(** Macro for mg per LSB at +/- 8g sensitivity (1 LSB = 0.000976mg). *)
Definition ACCEL_MG_LSB_8G : F32.t := F32.lit 976 1000000.
(** Macro for micro tesla (uT) per LSB (1 LSB = 0.1uT). *)
Definition MAG_UT_LSB : F32.t := F32.lit 1 10.

(* ===================================================================== *)
(** * The environment: bus, device and clock *)
(* ===================================================================== *)

(** What the driver takes from outside itself.  [sizeof_sensors_event_t],
    [SENSOR_TYPE_ACCELEROMETER] and [SENSOR_TYPE_MAGNETIC_FIELD] are the size
    and the two type tags Adafruit_Sensor.h defines, and [timestamp_type] is
    the integer type that header declares the member [timestamp] of a
    [sensors_event_t] with.  [register_read] and
    [register_write] are [Adafruit_BusIO_Register::read]/[write] on a
    register address;
    [bits_read reg bits shift] and [bits_write reg bits shift v] are
    [Adafruit_BusIO_RegisterBits(reg, bits, shift)::read]/[write];
    [write_then_read out n] is [Adafruit_I2CDevice::write_then_read] and
    answers with its result and the content of the buffer after the call.
    Every answer may depend on, and change, the state of the world. *)
Record Env : Type := mkEnv {
  sizeof_sensors_event_t : Z;
  SENSOR_TYPE_ACCELEROMETER : Z;
  SENSOR_TYPE_MAGNETIC_FIELD : Z;
  timestamp_type : c_int;
  world : Type;
  i2c_begin : Z -> world -> bool * world;
  register_read : Z -> world -> Z * world;
  register_write : Z -> Z -> world -> bool * world;
  bits_read : Z -> Z -> Z -> world -> Z * world;
  bits_write : Z -> Z -> Z -> Z -> world -> bool * world;
  write_then_read : list byte -> nat -> world -> (bool * list byte) * world;
  millis : world -> Z * world;
  delay : Z -> world -> unit * world
}.

(** What the member [timestamp] of a [sensors_event_t] holds once the
    [uint32_t] value [v] has been assigned to it. *)
Definition timestamp_member (E : Env) (v : Z) : Z :=
  convert (timestamp_type E) v.

(** One entry of the trace per call into the environment. *)
Inductive Call : Type :=
| I2CBegin (addr : Z)
| RegisterRead (reg : Z)
| RegisterWrite (reg v : Z)
| BitsRead (reg bits shift : Z)
| BitsWrite (reg bits shift v : Z)
| WriteThenRead (out : list byte) (n : nat)
| Millis
| Delay (ms : Z).

Section Machine.

Context {E : Env}.

(** The driver object, the world it talks to, and the calls made so far
    (oldest first). *)
Record State : Type := mkState {
  drv : Driver;
  hw : world E;
  trace : list Call
}.

(** How a run of driver code ends: it returns a value, it is still polling
    when the allowance of loop iterations is used up, or it dereferences a
    null [i2c_dev]. *)
Inductive Outcome (A : Type) : Type :=
| Ret (a : A) (s : State)
| Spin (s : State)
| Fault (s : State).

Definition M (A : Type) : Type := State -> Outcome A.

Definition M_ret {A : Type} (a : A) : M A := fun s => Ret A a s.

Definition M_bind {A B : Type} (c : M A) (k : A -> M B) : M B :=
  fun s =>
    match c s with
    | Ret _ a s' => k a s'
    | Spin _ s' => Spin B s'
    | Fault _ s' => Fault B s'
    end.

#[export] Instance Monad_M : Monad M := {
  ret := @M_ret;
  bind := @M_bind
}.

Definition spin {A : Type} : M A := fun s => Spin A s.

Definition get_drv : M Driver := fun s => Ret _ (drv s) s.

Definition update (f : Driver -> Driver) : M unit :=
  fun s => Ret _ tt (mkState (f (drv s)) (hw s) (trace s)).

(** A call into the environment, recorded in the trace. *)
Definition call {A : Type} (c : Call) (f : world E -> A * world E) : M A :=
  fun s =>
    let r := f (hw s) in
    Ret _ (fst r) (mkState (drv s) (snd r) (trace s ++ [c])).

(** A call through the pointer [i2c_dev]. *)
Definition through_dev {A : Type} (c : Call) (f : world E -> A * world E) : M A :=
  fun s =>
    match i2c_dev (drv s) with
    | None => Fault _ s
    | Some _ => call c f s
    end.

Definition Register_read (reg : Z) : M Z :=
  through_dev (RegisterRead reg) (register_read E reg).

Definition Register_write (reg v : Z) : M bool :=
  through_dev (RegisterWrite reg v) (register_write E reg v).

Definition RegisterBits_read (reg bits shift : Z) : M Z :=
  through_dev (BitsRead reg bits shift) (bits_read E reg bits shift).

Definition RegisterBits_write (reg bits shift v : Z) : M bool :=
  through_dev (BitsWrite reg bits shift v) (bits_write E reg bits shift v).

Definition I2CDevice_write_then_read (out : list byte) (n : nat)
    : M (bool * list byte) :=
  through_dev (WriteThenRead out n) (write_then_read E out n).

Definition Arduino_millis : M Z := call Millis (millis E).

Definition Arduino_delay (ms : Z) : M unit := call (Delay ms) (delay E ms).

(** [while (cond) { body }], running at most [fuel] tests of [cond]. *)
Fixpoint while_ (fuel : nat) (cond : M bool) (body : M unit) : M unit :=
  match fuel with
  | O => spin
  | S n =>
      b <- cond ;;
      if (b : bool) then body ;; while_ n cond body else ret tt
  end.

End Machine.

Arguments State : clear implicits.
Arguments Outcome : clear implicits.
Arguments M : clear implicits.
Arguments Ret {E A} a s.
Arguments Spin {E A} s.
Arguments Fault {E A} s.

(* ===================================================================== *)
(** * Adafruit_FXOS8700.cpp: the driver *)
(* ===================================================================== *)

(** The search loop of [setOutputDataRate],
    [for (int i = 0; i < 8; i++) if (rate == TABLE[i]) { odr = ODR_drBits[i]; ... break; }]:
    [n] counts the iterations left and [i] is the loop index.  The result
    is [Some odr] when [isRateInMode] ends up true. *)
Fixpoint search_odr (n : nat) (i : nat) (table : list fxos8700ODR_t)
    (rate : fxos8700ODR_t) : option Z :=
  match n with
  | O => None
  | S n' =>
      match nth_error table i with
      | Some r =>
          if odr_eqb rate r then Some (nth i ODR_drBits 0 mod 256)
          else search_odr n' (S i) table rate
      | None => None
      end
  end.

(** The table [setOutputDataRate] searches in a given sensor mode. *)
Definition available_odrs (mode : fxos8700SensorMode_t) : list fxos8700ODR_t :=
  if mode_eqb mode HYBRID_MODE then HYBRID_AVAILABLE_ODRs
  else ACCEL_MAG_ONLY_AVAILABLE_ODRs.

(** The factor of the [switch (_range)] in [getEvent]. *)
Definition accel_scale (range : fxos8700AccelRange_t) : F32.t :=
  match range with
  | ACCEL_RANGE_2G => F32.mul ACCEL_MG_LSB_2G SENSORS_GRAVITY_STANDARD
  | ACCEL_RANGE_4G => F32.mul ACCEL_MG_LSB_4G SENSORS_GRAVITY_STANDARD
  | ACCEL_RANGE_8G => F32.mul ACCEL_MG_LSB_8G SENSORS_GRAVITY_STANDARD
  end.

(** The body of [if (accelEvent) { ... }] in [getEvent]: the event written
    through the pointer and the driver after it. *)
Definition fill_accel (E : Env) (buffer : list byte) (ts : Z) (d : Driver)
    : sensors_event_t * Driver :=
  (* memset(accelEvent, 0, ...); accel_raw.x = accel_raw.y = accel_raw.z = 0 *)
  let ev := zeroed_event in
  let d := set_accel_raw (mkRaw 0 0 0) d in
  (* version, sensor_id, type, timestamp *)
  let ev := mkEvent (sizeof_sensors_event_t E) (_accelSensorID d)
              (SENSOR_TYPE_ACCELEROMETER E) (timestamp_member E ts)
              (data ev) in
  (* accel data is 14-bit and left-aligned, so we shift two bit right *)
  let ax := F32.of_Z (Z.shiftr (word16 (buf buffer 1) (buf buffer 2)) 2) in
  let ay := F32.of_Z (Z.shiftr (word16 (buf buffer 3) (buf buffer 4)) 2) in
  let az := F32.of_Z (Z.shiftr (word16 (buf buffer 5) (buf buffer 6)) 2) in
  (* assign raw values in case someone needs them *)
  let d := set_accel_raw
             (mkRaw (int16 (F32.trunc ax)) (int16 (F32.trunc ay))
                (int16 (F32.trunc az))) d in
  (* convert accel values to m/s^2 *)
  let k := accel_scale (_range d) in
  (mkEvent (version ev) (sensor_id ev) (type ev) (timestamp ev)
     (mkVec (F32.mul ax k) (F32.mul ay k) (F32.mul az k)), d).

(** The body of [if (magEvent) { ... }] in [getEvent]. *)
Definition fill_mag (E : Env) (buffer : list byte) (ts : Z) (d : Driver)
    : sensors_event_t * Driver :=
  let ev := zeroed_event in
  let d := set_mag_raw (mkRaw 0 0 0) d in
  let ev := mkEvent (sizeof_sensors_event_t E) (_magSensorID d)
              (SENSOR_TYPE_MAGNETIC_FIELD E) (timestamp_member E ts)
              (data ev) in
  let mx := F32.of_Z (word16 (buf buffer 7) (buf buffer 8)) in
  let my := F32.of_Z (word16 (buf buffer 9) (buf buffer 10)) in
  let mz := F32.of_Z (word16 (buf buffer 11) (buf buffer 12)) in
  let d := set_mag_raw
             (mkRaw (int16 (F32.trunc mx)) (int16 (F32.trunc my))
                (int16 (F32.trunc mz))) d in
  (* convert mag values to uTesla *)
  (mkEvent (version ev) (sensor_id ev) (type ev) (timestamp ev)
     (mkVec (F32.mul mx MAG_UT_LSB) (F32.mul my MAG_UT_LSB)
        (F32.mul mz MAG_UT_LSB)), d).

Section Driver.

Context {E : Env}.

(** [void Adafruit_FXOS8700::standby(boolean standby)]. *)
Definition standby (fuel : nat) (enable : bool) : M E unit :=
  if enable then
    RegisterBits_write FXOS8700_REGISTER_CTRL_REG1 1 0 0 ;;
    while_ fuel
      (v <- RegisterBits_read FXOS8600_REGISTER_SYSMOD 2 0 ;;
       ret (negb (v =? STANDBY)))
      (Arduino_delay 10)
  else
    RegisterBits_write FXOS8700_REGISTER_CTRL_REG1 1 0 1 ;;
    while_ fuel
      (v <- RegisterBits_read FXOS8600_REGISTER_SYSMOD 2 0 ;;
       ret (v =? STANDBY))
      (Arduino_delay 10).

(** [void Adafruit_FXOS8700::setSensorMode(fxos8700SensorMode_t mode)]. *)
Definition setSensorMode (fuel : nat) (mode : fxos8700SensorMode_t) : M E unit :=
  standby fuel true ;;
  RegisterBits_write FXOS8700_REGISTER_MCTRL_REG1 2 0 (mode_code mode) ;;
  RegisterBits_write FXOS8700_REGISTER_MCTRL_REG2 1 5
    (if mode_eqb mode HYBRID_MODE then 1 else 0) ;;
  standby fuel false ;;
  update (set_mode mode).

Definition getSensorMode : M E fxos8700SensorMode_t :=
  d <- get_drv ;; ret (_mode d).

(** [void Adafruit_FXOS8700::setAccelRange(fxos8700AccelRange_t range)]. *)
Definition setAccelRange (fuel : nat) (range : fxos8700AccelRange_t) : M E unit :=
  standby fuel true ;;
  RegisterBits_write FXOS8700_REGISTER_XYZ_DATA_CFG 2 0 (range_code range) ;;
  (if range_code range =? range_code ACCEL_RANGE_8G
   then RegisterBits_write FXOS8700_REGISTER_CTRL_REG1 1 2 0 ;; ret tt
   else ret tt) ;;
  standby fuel false ;;
  update (set_range range).

Definition getAccelRange : M E fxos8700AccelRange_t :=
  d <- get_drv ;; ret (_range d).

(** [void Adafruit_FXOS8700::setOutputDataRate(fxos8700ODR_t rate)]. *)
Definition setOutputDataRate (fuel : nat) (rate : fxos8700ODR_t) : M E unit :=
  d <- get_drv ;;
  match search_odr 8 0 (available_odrs (_mode d)) rate with
  | None =>
      (* requested rate can't be set in current sensor mode, so return
         existing rate without setting *)
      ret tt
  | Some odr =>
      standby fuel true ;;
      Register_write FXOS8700_REGISTER_CTRL_REG1 odr ;;
      standby fuel false ;;
      update (set_rate rate)
  end.

Definition getOutputDataRate : M E fxos8700ODR_t :=
  d <- get_drv ;; ret (_rate d).

(** [void Adafruit_FXOS8700::setMagOversamplingRatio(fxos8700MagOSR_t ratio)]. *)
Definition setMagOversamplingRatio (fuel : nat) (ratio : fxos8700MagOSR_t)
    : M E unit :=
  standby fuel true ;;
  RegisterBits_write FXOS8700_REGISTER_MCTRL_REG1 3 2 (osr_code ratio) ;;
  standby fuel false ;;
  update (set_ratio ratio).

Definition getMagOversamplingRatio : M E fxos8700MagOSR_t :=
  d <- get_drv ;; ret (_ratio d).

(** [bool Adafruit_FXOS8700::initialize()]. *)
Definition initialize (fuel : nat) : M E bool :=
  setAccelRange fuel ACCEL_RANGE_2G ;;
  standby fuel true ;;
  RegisterBits_write FXOS8700_REGISTER_CTRL_REG1 1 2 1 ;;
  RegisterBits_write FXOS8700_REGISTER_CTRL_REG2 2 0 2 ;;
  standby fuel false ;;
  setSensorMode fuel HYBRID_MODE ;;
  setOutputDataRate fuel ODR_100HZ ;;
  setMagOversamplingRatio fuel MAG_OSR_7 ;;
  update (set_accel_raw (mkRaw 0 0 0)) ;;
  update (set_mag_raw (mkRaw 0 0 0)) ;;
  ret true.

(** [bool Adafruit_FXOS8700::begin(uint8_t addr, TwoWire *wire)]: the old
    device object is deleted and a new one bound to [addr]. *)
Definition begin (fuel : nat) (addr : Z) : M E bool :=
  update (set_i2c_dev (Some addr)) ;;
  ok <- through_dev (I2CBegin addr) (i2c_begin E addr) ;;
  if negb ok then ret false
  else
    id <- Register_read FXOS8700_REGISTER_WHO_AM_I ;;
    if negb (id =? FXOS8700_ID) then ret false
    else initialize fuel.

(** [bool Adafruit_FXOS8700::getEvent(sensors_event_t *accelEvent,
    sensors_event_t *magEvent)].  A pointer is [None] when null and
    [Some e] when it points to a record holding [e]; the two records are
    distinct objects.  The result carries what the records hold after the
    call. *)
Definition getEvent (accelEvent magEvent : option sensors_event_t)
    : M E (bool * option sensors_event_t * option sensors_event_t) :=
  (* Read 13 bytes from the sensor *)
  r <- I2CDevice_write_then_read [Byte.x00] 13 ;;
  let buffer := snd r in
  (* uint32_t const timestamp = millis(); *)
  t <- Arduino_millis ;;
  let ts := uint32 t in
  accelEvent' <-
    match accelEvent with
    | None => ret None
    | Some _ =>
        d <- get_drv ;;
        update (fun _ => snd (fill_accel E buffer ts d)) ;;
        ret (Some (fst (fill_accel E buffer ts d)))
    end ;;
  magEvent' <-
    match magEvent with
    | None => ret None
    | Some _ =>
        d <- get_drv ;;
        update (fun _ => snd (fill_mag E buffer ts d)) ;;
        ret (Some (fst (fill_mag E buffer ts d)))
    end ;;
  ret (true, accelEvent', magEvent').

(** [bool Adafruit_FXOS8700::getEvent(sensors_event_t *singleSensorEvent)].
    [dummy] is what the local record of that name holds on entry. *)
Definition getEvent_single (dummy : sensors_event_t)
    (singleSensorEvent : sensors_event_t) : M E (bool * sensors_event_t) :=
  d <- get_drv ;;
  match _mode d with
  | ACCEL_ONLY_MODE =>
      r <- getEvent (Some singleSensorEvent) (Some dummy) ;;
      ret (fst (fst r),
           match snd (fst r) with Some e => e | None => singleSensorEvent end)
  | MAG_ONLY_MODE =>
      r <- getEvent (Some dummy) (Some singleSensorEvent) ;;
      ret (fst (fst r),
           match snd r with Some e => e | None => singleSensorEvent end)
  | HYBRID_MODE => ret (false, singleSensorEvent)
  end.

(** [bool Adafruit_FXOS8700_Accelerometer::getEvent(sensors_event_t *event)]. *)
Definition Accelerometer_getEvent (event : sensors_event_t)
    : M E (bool * option sensors_event_t * option sensors_event_t) :=
  getEvent (Some event) None.

(** [bool Adafruit_FXOS8700_Magnetometer::getEvent(sensors_event_t *event)]. *)
Definition Magnetometer_getEvent (event : sensors_event_t)
    : M E (bool * option sensors_event_t * option sensors_event_t) :=
  getEvent None (Some event).

End Driver.

(* ===================================================================== *)
(** * A bench device *)
(* ===================================================================== *)

(** A simulated FXOS8700 on a simulated bus, used to run the driver on
    concrete inputs.  Registers are a file of bytes; the bit-field helpers
    behave as read-modify-write on it.  The member [timestamp] of an event
    is an [int32_t], as Adafruit_Sensor.h has it.  [sysmod] fixes what the
    system-status register reports: [None] lets it follow the active bit of
    CTRL_REG1 (a responsive device), [Some v] makes it read [v] for ever (a
    device that never changes its power state). *)
Module Bench.

Record World : Type := mkWorld {
  regs : list (Z * Z);
  chip_id : Z;
  link_ok : bool;
  burst : list byte;
  clock : Z
}.

Fixpoint lookup (reg : Z) (l : list (Z * Z)) : Z :=
  match l with
  | [] => 0
  | (r, v) :: l' => if r =? reg then v else lookup reg l'
  end.

Definition tick (dt : Z) (w : World) : World :=
  mkWorld (regs w) (chip_id w) (link_ok w) (burst w) (clock w + dt).

Definition store (reg v : Z) (w : World) : World :=
  mkWorld ((reg, v mod 256) :: regs w) (chip_id w) (link_ok w) (burst w)
    (clock w).

Definition peek (sysmod : option Z) (reg : Z) (w : World) : Z :=
  if reg =? FXOS8600_REGISTER_SYSMOD then
    match sysmod with
    | Some v => v
    | None =>
        if negb (link_ok w) then 0xFFFFFFFF
        else if Z.testbit (lookup FXOS8700_REGISTER_CTRL_REG1 (regs w)) 0
        then WAKE else STANDBY
    end
  else if negb (link_ok w) then 0xFFFFFFFF
  else if reg =? FXOS8700_REGISTER_WHO_AM_I then chip_id w
  else lookup reg (regs w).

Definition poke (reg v : Z) (w : World) : bool * World :=
  if link_ok w then (true, tick 1 (store reg v w)) else (false, tick 1 w).

Definition field_mask (bits : Z) : Z := Z.shiftl 1 bits - 1.

Definition env (sysmod : option Z) : Env :=
  mkEnv 36 1 2 int32_t World
    (fun _ w => (link_ok w, tick 1 w))
    (fun reg w => (peek sysmod reg w, tick 1 w))
    poke
    (fun reg bits shift w =>
       (Z.land (Z.shiftr (peek sysmod reg w) shift) (field_mask bits),
        tick 1 w))
    (fun reg bits shift v w =>
       let old := peek sysmod reg w in
       let cleared := Z.ldiff old (Z.shiftl (field_mask bits) shift) in
       poke reg
         (Z.lor cleared (Z.shiftl (Z.land v (field_mask bits)) shift)) w)
    (fun _ _ w => ((link_ok w, burst w), tick 1 w))
    (fun w => (clock w, w))
    (fun ms w => (tt, tick (Z.max 0 ms) w)).

(** A device answering to its name, with a 13-byte sample ready. *)
Definition sample : list byte :=
  [x00; x10; x00; xff; xfc; x00; x04; xff; xff; x00; x64; x80; x00].

Definition world0 : World := mkWorld [] FXOS8700_ID true sample 1000.

(** The same bus with every transaction failing. *)
Definition dead : World := mkWorld [] FXOS8700_ID false sample 1000.


(** A device of another kind at the address. *)
Definition stranger : World := mkWorld [] 0xC4 true sample 1000.

Definition raw0 : fxos8700RawData_t := mkRaw 7 7 7.

(** The driver as constructed, and as it stands once [begin] has bound the
    device and set the defaults. *)
Definition fresh : Driver := Adafruit_FXOS8700 (-1) (-1) raw0.

Definition begun : Driver :=
  mkDriver HYBRID_MODE ACCEL_RANGE_2G ODR_100HZ MAG_OSR_7 (-1) (-1)
    (mkRaw 0 0 0) (mkRaw 0 0 0) (Some 0x1F).

Definition start (sysmod : option Z) (d : Driver) (w : World)
    : State (env sysmod) :=
  mkState (E := env sysmod) d w [].

End Bench.

(* ===================================================================== *)
(** * Configuration operations and the rate/mode relation *)
(* ===================================================================== *)

Inductive ConfigOp : Type :=
| OpSetSensorMode (mode : fxos8700SensorMode_t)
| OpSetOutputDataRate (rate : fxos8700ODR_t)
| OpSetAccelRange (range : fxos8700AccelRange_t)
| OpSetMagOversamplingRatio (ratio : fxos8700MagOSR_t).

Definition run_op {E : Env} (fuel : nat) (op : ConfigOp) : M E unit :=
  match op with
  | OpSetSensorMode m => setSensorMode fuel m
  | OpSetOutputDataRate r => setOutputDataRate fuel r
  | OpSetAccelRange g => setAccelRange fuel g
  | OpSetMagOversamplingRatio o => setMagOversamplingRatio fuel o
  end.

Fixpoint run_ops {E : Env} (fuel : nat) (ops : list ConfigOp) : M E unit :=
  match ops with
  | [] => ret tt
  | op :: ops' => run_op fuel op ;; run_ops fuel ops'
  end.

(** The state a run ends in, or the state it started from when it does not
    return. *)
Definition final_state {E : Env} {A : Type} (c : M E A) (s : State E)
    : State E :=
  match c s with
  | Ret _ s' => s'
  | _ => s
  end.

(** The stored rate belongs to the table of the stored mode: the
    hybrid-mode table when the mode is hybrid, the accel/mag-only table
    otherwise. *)
Definition rate_legal (d : Driver) : Prop :=
  In (_rate d) (available_odrs (_mode d)).

(** States reached by runs on the bench device. *)
Module BenchRuns.

Definition after_25hz_then_accel_only : State (Bench.env None) :=
  Eval vm_compute in
    final_state
      (run_ops 1 [OpSetOutputDataRate ODR_25HZ; OpSetSensorMode ACCEL_ONLY_MODE])
      (Bench.start None Bench.begun Bench.world0).

Definition after_accel_only_800hz_8g : State (Bench.env None) :=
  Eval vm_compute in
    final_state
      (run_ops 1 [OpSetSensorMode ACCEL_ONLY_MODE; OpSetOutputDataRate ODR_800HZ;
                  OpSetAccelRange ACCEL_RANGE_8G])
      (Bench.start None Bench.begun Bench.world0).

Definition after_begin : State (Bench.env None) :=
  Eval vm_compute in
    final_state (begin 1 0x1F) (Bench.start None Bench.fresh Bench.world0).

Definition after_standby_round_trip : State (Bench.env None) :=
  Eval vm_compute in
    final_state (standby 1 true ;; standby 1 false)
      (Bench.start None Bench.begun Bench.world0).

Definition after_leaving_standby : State (Bench.env None) :=
  Eval vm_compute in
    final_state (standby 2 false) (Bench.start None Bench.begun Bench.world0).

Definition after_8g : State (Bench.env None) :=
  Eval vm_compute in
    final_state (run_op 1 (OpSetAccelRange ACCEL_RANGE_8G))
      (Bench.start None Bench.begun Bench.world0).

Definition after_failed_handshake : State (Bench.env None) :=
  Eval vm_compute in
    final_state (begin 1 0x1F) (Bench.start None Bench.fresh Bench.dead).

Definition accel_only : State (Bench.env None) :=
  Eval vm_compute in
    final_state (run_op 1 (OpSetSensorMode ACCEL_ONLY_MODE))
      (Bench.start None Bench.begun Bench.world0).

End BenchRuns.

(** The state right after a successful [begin]: the defaults of
    [initialize], whatever the identifiers, the address and the world. *)
Definition post_begin {E : Env} (s : State E) : Prop :=
  _mode (drv s) = HYBRID_MODE /\ _range (drv s) = ACCEL_RANGE_2G /\
  _rate (drv s) = ODR_100HZ /\ _ratio (drv s) = MAG_OSR_7 /\
  i2c_dev (drv s) <> None.

(** [reachable s ops s']: running the operations [ops] in order from [s],
    each one returning, ends in [s']. *)
Inductive reachable {E : Env} : State E -> list ConfigOp -> State E -> Prop :=
| reach_nil s : reachable s [] s
| reach_cons s op fuel s1 ops s2 :
    run_op fuel op s = Ret tt s1 ->
    reachable s1 ops s2 ->
    reachable s (op :: ops) s2.

(** The same, every mode change being made while the stored rate is legal
    for the new mode. *)
Definition mode_change_keeps_rate (op : ConfigOp) (d : Driver) : Prop :=
  match op with
  | OpSetSensorMode m => In (_rate d) (available_odrs m)
  | _ => True
  end.

Inductive reachable_keeping_rate {E : Env}
    : State E -> list ConfigOp -> State E -> Prop :=
| keep_nil s : reachable_keeping_rate s [] s
| keep_cons s op fuel s1 ops s2 :
    mode_change_keeps_rate op (drv s) ->
    run_op fuel op s = Ret tt s1 ->
    reachable_keeping_rate s1 ops s2 ->
    reachable_keeping_rate s (op :: ops) s2.

(** The documented constant of each range (0.000244, 0.000488 and
    0.000976) and standard gravity (9.80665), as exact rationals. *)
Definition documented_g_per_lsb (range : fxos8700AccelRange_t) : Q :=
  match range with
  | ACCEL_RANGE_2G => 244 # 1000000
  | ACCEL_RANGE_4G => 488 # 1000000
  | ACCEL_RANGE_8G => 976 # 1000000
  end.

Definition standard_gravity : Q := 980665 # 100000.

(** The same constants as the [float] literals of the source. *)
Definition documented_literal (range : fxos8700AccelRange_t) : F32.t :=
  match range with
  | ACCEL_RANGE_2G => F32.lit 244 1000000
  | ACCEL_RANGE_4G => F32.lit 488 1000000
  | ACCEL_RANGE_8G => F32.lit 976 1000000
  end.




(** The value of an outcome under a function of its result. *)
Definition map_outcome {E : Env} {A B : Type} (f : A -> B) (o : Outcome E A)
    : Outcome E B :=
  match o with
  | Ret a s => Ret (f a) s
  | Spin s => Spin s
  | Fault s => Fault s
  end.

(** [check_range P n v]: [P] holds of the [n] integers from [v] on. *)
Fixpoint check_range (P : Z -> bool) (n : nat) (v : Z) : bool :=
  match n with
  | O => true
  | S n' => P v && check_range P n' (v + 1)
  end.

(** The trace of [n] polls of the system-status register, each followed by
    the fixed sleep. *)
Fixpoint polls (n : nat) : list Call :=
  match n with
  | O => []
  | S n' => BitsRead FXOS8600_REGISTER_SYSMOD 2 0 :: Delay 10 :: polls n'
  end.

(** What [setOutputDataRate] does to the fields: the rate is stored when the
    search finds it in the table of the current mode. *)
Definition rate_update (rate : fxos8700ODR_t) (d : Driver) : Driver :=
  match search_odr 8 0 (available_odrs (_mode d)) rate with
  | Some _ => set_rate rate d
  | None => d
  end.

(** The fields [initialize] leaves behind. *)
Definition initialized (d : Driver) : Driver :=
  set_mag_raw (mkRaw 0 0 0)
    (set_accel_raw (mkRaw 0 0 0)
       (set_ratio MAG_OSR_7
          (rate_update ODR_100HZ
             (set_mode HYBRID_MODE (set_range ACCEL_RANGE_2G d))))).

(** What the system-status register reports is, or is not, STANDBY in
    every state of the world. *)
Definition sysmod_always {E : Env} (standby_reported : bool) : Prop :=
  forall w : world E,
    (fst (bits_read E FXOS8600_REGISTER_SYSMOD 2 0 w) =? STANDBY)
    = standby_reported.

(** [c], when it returns, has changed the driver fields by [f]. *)
Definition drv_step {E : Env} {A : Type} (c : M E A) (f : Driver -> Driver)
    : Prop :=
  forall s a s', c s = Ret a s' -> drv s' = f (drv s).

Definition keeps_drv {E : Env} {A : Type} (c : M E A) : Prop :=
  drv_step c (fun d => d).

(** Runs one operation on a concrete state by evaluation. *)
Ltac run_step :=
  lazymatch goal with
  | |- ?lhs = Ret tt ?s =>
      let v := eval vm_compute in lhs in
      lazymatch v with
      | Ret tt ?x => unify s x; vm_cast_no_check (eq_refl v)
      end
  end.

(* ===================================================================== *)
(** * Sensor descriptors *)
(* ===================================================================== *)

(** A decimal literal without suffix is a [double] (binary64); assigned to a
    [float] member it is rounded a second time. *)
Definition F64_lit (num den : Z) : spec_float :=
  SFdiv 53 1024 (binary_normalize 53 1024 num 0 false)
    (binary_normalize 53 1024 den 0 false).

Definition F32_of_double (a : spec_float) : F32.t :=
  match a with
  | S754_finite s m e =>
      binary_normalize F32.prec F32.emax (if s then Z.neg m else Z.pos m) e s
  | _ => a
  end.

(** Modelled from the spec: the record [sensor_t] of Adafruit_Sensor.h,
    which is not part of the repository.  The spec gives its content as
    name, minimal and maximal physical value, resolution and minimal sample
    interval; [st_version], [st_sensor_id] and [st_type] are the other
    members the driver assigns.  [st_name] is the [char] array [name], one
    byte per element.  Each numeric member holds the value assigned to it,
    before any conversion to the member's declared type. *)
Record sensor_t : Type := mkSensor {
  st_name : list byte;
  st_version : Z;
  st_sensor_id : Z;
  st_type : Z;
  st_max_value : F32.t;
  st_min_value : F32.t;
  st_resolution : F32.t;
  st_min_delay : F32.t
}.

(** The string literals of the descriptors, without their terminator:
    "FXOS8700", "FXOS8700_A" and "FXOS8700_M". *)
Definition name_FXOS8700 : list byte := [x46; x58; x4f; x53; x38; x37; x30; x30].
Definition name_FXOS8700_A : list byte := name_FXOS8700 ++ [x5f; x41].
Definition name_FXOS8700_M : list byte := name_FXOS8700 ++ [x5f; x4d].

(** [strncpy(dest, src, n)] for a source without NUL inside: [n] bytes of
    [dest] are written, the characters of [src] first and NUL after them. *)
Definition strncpy (dest src : list byte) (n : nat) : list byte :=
  firstn n (src ++ repeat x00 n) ++ skipn n dest.

(** [a[i] = b] on an array. *)
Definition array_store (a : list byte) (i : nat) (b : byte) : list byte :=
  firstn i a ++ b :: skipn (S i) a.

(** The name member after [memset], [strncpy(name, lit, sizeof(name) - 1)]
    and [name[sizeof(name) - 1] = 0], for an array of [name_size] bytes. *)
Definition fill_name (name_size : nat) (lit : list byte) : list byte :=
  let name := repeat x00 name_size in
  let name := strncpy name lit (name_size - 1) in
  array_store name (name_size - 1) x00.

(** The C string an array holds: the bytes before the first NUL. *)
Fixpoint c_str (a : list byte) : list byte :=
  match a with
  | [] => []
  | b :: a' => if byte_val b =? 0 then [] else b :: c_str a'
  end.

(** [void Adafruit_FXOS8700::getSensor(sensor_t *accelSensor, sensor_t
    *magSensor)]: what the two records hold after the call.  The function
    reads the driver fields only.  [name_size] is [sizeof(accelSensor->name)]. *)
Definition getSensor (E : Env) (name_size : nat) (d : Driver)
    : sensor_t * sensor_t :=
  let accel_bounds :=
    match _range d with
    | ACCEL_RANGE_2G =>
        (F32.mul (F32.lit 2 1) SENSORS_GRAVITY_STANDARD,
         F32.mul (F32.opp (F32.lit 1999 1000)) SENSORS_GRAVITY_STANDARD,
         F32.mul ACCEL_MG_LSB_2G SENSORS_GRAVITY_STANDARD)
    | ACCEL_RANGE_4G =>
        (F32.mul (F32.lit 4 1) SENSORS_GRAVITY_STANDARD,
         F32.mul (F32.opp (F32.lit 3998 1000)) SENSORS_GRAVITY_STANDARD,
         F32.mul ACCEL_MG_LSB_4G SENSORS_GRAVITY_STANDARD)
    | ACCEL_RANGE_8G =>
        (F32.mul (F32.lit 8 1) SENSORS_GRAVITY_STANDARD,
         F32.mul (F32.opp (F32.lit 7996 1000)) SENSORS_GRAVITY_STANDARD,
         F32.mul ACCEL_MG_LSB_8G SENSORS_GRAVITY_STANDARD)
    end in
  (mkSensor (fill_name name_size name_FXOS8700) 1 (_accelSensorID d)
     (SENSOR_TYPE_ACCELEROMETER E)
     (fst (fst accel_bounds)) (snd (fst accel_bounds)) (snd accel_bounds)
     (F32.lit 1 100),
   mkSensor (fill_name name_size name_FXOS8700) 1 (_magSensorID d)
     (SENSOR_TYPE_MAGNETIC_FIELD E)
     (F32.lit 1200 1) (F32.opp (F32.lit 1200 1)) (F32.lit 1 10)
     (F32.lit 1 100)).

(** [void Adafruit_FXOS8700::getSensor(sensor_t *accelSensor)]: the second
    record is a local that is thrown away. *)
Definition getSensor_single (E : Env) (name_size : nat) (d : Driver) : sensor_t :=
  fst (getSensor E name_size d).

(** The identifiers the two facade objects are created with
    ([int _sensorID = 8701] and [int _sensorID = 8702]). *)
Definition Accelerometer_sensorID : Z := 8701.
Definition Magnetometer_sensorID : Z := 8702.

(** [void Adafruit_FXOS8700_Magnetometer::getSensor(sensor_t *sensor)]. *)
Definition Magnetometer_getSensor (E : Env) (name_size : nat) : sensor_t :=
  mkSensor (fill_name name_size name_FXOS8700_M) 1 Magnetometer_sensorID
    (SENSOR_TYPE_MAGNETIC_FIELD E)
    (F32.of_Z 1200) (F32.of_Z (-1200)) (F32.of_Z 0) (F32.of_Z 0).

(** [void Adafruit_FXOS8700_Accelerometer::getSensor(sensor_t *sensor)]. *)
Definition Accelerometer_getSensor (E : Env) (name_size : nat) : sensor_t :=
  mkSensor (fill_name name_size name_FXOS8700_A) 1 Accelerometer_sensorID
    (SENSOR_TYPE_ACCELEROMETER E)
    (F32.lit 784532 10000) (F32.opp (F32.lit 784532 10000))
    (F32_of_double (F64_lit 61 1000)) (F32.of_Z 0).

(** [lo <= r * k <= hi], the product taken in [float] arithmetic and the
    comparisons on the rationals the floats stand for. *)
Definition scaled_within (lo hi : Q) (k : F32.t) (r : Z) : bool :=
  Qle_bool lo (F32.to_Q (F32.mul (F32.of_Z r) k))
  && Qle_bool (F32.to_Q (F32.mul (F32.of_Z r) k)) hi.

(** [r * k] lies within [lo, hi] exactly when [r] lies within [-m, m]. *)
Definition scaled_within_iff (lo hi : Q) (k : F32.t) (m r : Z) : bool :=
  Bool.eqb (scaled_within lo hi k r) ((- m <=? r) && (r <=? m)).

(* ===================================================================== *)
(** * Traces of the driver *)
(* ===================================================================== *)

(** The state an outcome carries. *)
Definition out_state {E : Env} {A : Type} (o : Outcome E A) : State E :=
  match o with
  | Ret _ s => s
  | Spin s => s
  | Fault s => s
  end.

(** The bit fields the driver writes, as (register, width, shift). *)
Definition written_fields : list (Z * Z * Z) :=
  [(FXOS8700_REGISTER_CTRL_REG1, 1, 0);
   (FXOS8700_REGISTER_CTRL_REG1, 1, 2);
   (FXOS8700_REGISTER_CTRL_REG2, 2, 0);
   (FXOS8700_REGISTER_XYZ_DATA_CFG, 2, 0);
   (FXOS8700_REGISTER_MCTRL_REG1, 2, 0);
   (FXOS8700_REGISTER_MCTRL_REG1, 3, 2);
   (FXOS8700_REGISTER_MCTRL_REG2, 1, 5)].

(** The calls the driver is expected to make: the bus handshake, a read of
    the identity register, a write of one of the eight data-rate patterns to
    CTRL_REG1, a read of the 2-bit system mode, a write to one of the seven
    bit fields above of a value that fits the field, the 13-byte burst from
    the status register, a clock reading and a sleep of 10. *)
Definition driver_call (c : Call) : bool :=
  match c with
  | I2CBegin _ => true
  | RegisterRead reg => reg =? FXOS8700_REGISTER_WHO_AM_I
  | RegisterWrite reg v =>
      (reg =? FXOS8700_REGISTER_CTRL_REG1) && existsb (Z.eqb v) ODR_drBits
  | BitsRead reg bits shift =>
      (reg =? FXOS8600_REGISTER_SYSMOD) && (bits =? 2) && (shift =? 0)
  | BitsWrite reg bits shift v =>
      existsb
        (fun f => (fst (fst f) =? reg) && (snd (fst f) =? bits) && (snd f =? shift))
        written_fields
      && (0 <=? v) && (v <? 2 ^ bits)
  | WriteThenRead out n =>
      match out with
      | [b] => (byte_val b =? FXOS8700_REGISTER_STATUS) && Nat.eqb n 13
      | _ => false
      end
  | Millis => true
  | Delay ms => ms =? 10
  end.

(** Whatever the outcome, [c] has added to the trace only calls the driver
    is expected to make. *)
Definition stays_within {E : Env} {A : Type} (c : M E A) : Prop :=
  forall s, exists l,
    trace (out_state (c s)) = trace s ++ l /\ forallb driver_call l = true.

(** The calls of a [standby(enable)] that returns after [k] sleeps. *)
Definition standby_calls (enable : bool) (k : nat) : list Call :=
  BitsWrite FXOS8700_REGISTER_CTRL_REG1 1 0 (if enable then 0 else 1)
    :: polls k ++ [BitsRead FXOS8600_REGISTER_SYSMOD 2 0].

(** The position of the first occurrence of a rate in a table. *)
Fixpoint position (r : fxos8700ODR_t) (table : list fxos8700ODR_t)
    : option nat :=
  match table with
  | [] => None
  | x :: t => if odr_eqb r x then Some O else option_map S (position r t)
  end.

(** What each configuration operation is expected to do to the fields. *)
Definition apply_op (op : ConfigOp) (d : Driver) : Driver :=
  match op with
  | OpSetSensorMode m => set_mode m d
  | OpSetOutputDataRate r =>
      if existsb (odr_eqb r) (available_odrs (_mode d)) then set_rate r d
      else d
  | OpSetAccelRange g => set_range g d
  | OpSetMagOversamplingRatio o => set_ratio o d
  end.

(** The register writes a configuration operation makes between entering
    and leaving standby; [None] when the operation is a rate change that the
    current mode rejects. *)
Definition config_writes (op : ConfigOp) (d : Driver) : option (list Call) :=
  match op with
  | OpSetSensorMode m =>
      Some [BitsWrite FXOS8700_REGISTER_MCTRL_REG1 2 0 (mode_code m);
            BitsWrite FXOS8700_REGISTER_MCTRL_REG2 1 5
              (match m with HYBRID_MODE => 1 | _ => 0 end)]
  | OpSetOutputDataRate r =>
      match position r (available_odrs (_mode d)) with
      | Some i =>
          Some [RegisterWrite FXOS8700_REGISTER_CTRL_REG1 (8 * Z.of_nat i)]
      | None => None
      end
  | OpSetAccelRange g =>
      Some (BitsWrite FXOS8700_REGISTER_XYZ_DATA_CFG 2 0 (range_code g)
              :: match g with
                 | ACCEL_RANGE_8G =>
                     [BitsWrite FXOS8700_REGISTER_CTRL_REG1 1 2 0]
                 | _ => []
                 end)
  | OpSetMagOversamplingRatio o =>
      Some [BitsWrite FXOS8700_REGISTER_MCTRL_REG1 3 2 (osr_code o)]
  end.

(* ===================================================================== *)
(** * Properties *)
(* ===================================================================== *)

(** ** Running the monad *)

Section Run.

Context {E : Env}.

Lemma bind_ret {A B : Type} (c : M E A) (k : A -> M E B) s a s' :
  c s = Ret a s' -> bind c k s = k a s'.
Proof. intros H. cbn. unfold M_bind. rewrite H. reflexivity. Qed.

Lemma bind_inv {A B : Type} (c : M E A) (k : A -> M E B) s b s' :
  bind c k s = Ret b s' ->
  exists a s1, c s = Ret a s1 /\ k a s1 = Ret b s'.
Proof.
  cbn. unfold M_bind. destruct (c s) as [a s1 | s1 | s1]; intros H;
    try discriminate. exists a, s1. auto.
Qed.

Lemma through_dev_bound {A : Type} (c : Call) (f : world E -> A * world E) s :
  i2c_dev (drv s) <> None ->
  through_dev c f s =
    Ret (fst (f (hw s))) (mkState (drv s) (snd (f (hw s))) (trace s ++ [c])).
Proof.
  intros H. unfold through_dev, call.
  destruct (i2c_dev (drv s)); [reflexivity | contradiction].
Qed.

End Run.

(** ** Standby control *)

Section Standby.

Context {E : Env}.

Lemma poll_spins (enable : bool) (fuel : nat) :
  sysmod_always (E := E) (negb enable) ->
  forall s : State E,
    i2c_dev (drv s) <> None ->
    exists s',
      while_ fuel
        (v <- RegisterBits_read FXOS8600_REGISTER_SYSMOD 2 0 ;;
         ret (if enable then negb (v =? STANDBY) else (v =? STANDBY)))
        (Arduino_delay 10) s = Spin s' /\
      drv s' = drv s /\
      trace s' = trace s ++ polls fuel.
Proof.
  intros Hdev. induction fuel as [| n IH]; intros s Hs.
  - exists s. cbn. rewrite app_nil_r. auto.
  - cbn [while_].
    set (s1 := mkState (drv s)
                 (snd (bits_read E FXOS8600_REGISTER_SYSMOD 2 0 (hw s)))
                 (trace s ++ [BitsRead FXOS8600_REGISTER_SYSMOD 2 0])).
    set (s2 := mkState (drv s1) (snd (delay E 10 (hw s1)))
                 (trace s1 ++ [Delay 10])).
    destruct (IH s2 Hs) as (s' & Hrun & Hdrv & Htr).
    exists s'. split; [| split].
    + cbn. unfold M_bind at 1. unfold M_bind at 1.
      unfold RegisterBits_read. rewrite (through_dev_bound _ _ s Hs).
      unfold M_ret at 1. fold s1.
      specialize (Hdev (hw s)). cbn [fst].
      replace (if enable
               then negb (fst (bits_read E FXOS8600_REGISTER_SYSMOD 2 0 (hw s)) =? STANDBY)
               else fst (bits_read E FXOS8600_REGISTER_SYSMOD 2 0 (hw s)) =? STANDBY)
        with true by (rewrite Hdev; destruct enable; reflexivity).
      unfold M_bind at 1. unfold Arduino_delay at 1, call at 1. fold s2.
      exact Hrun.
    + rewrite Hdrv. reflexivity.
    + rewrite Htr. subst s2 s1. cbn [trace polls].
      rewrite <- !app_assoc. reflexivity.
Qed.

End Standby.

(** C4: [standby(enable)] has no timeout.  Against a device whose
    system-status register never reports the state waited for (STANDBY when
    entering, anything else when leaving), the call is still polling after
    any number [fuel] of polls: it never returns.  Up to there it has
    written the active bit once and then alternated one read of the
    system-status register with one sleep of 10. *)
Theorem standby_blocks_forever {E : Env} (enable : bool) (s : State E) :
  i2c_dev (drv s) <> None ->
  sysmod_always (E := E) (negb enable) ->
  forall fuel : nat,
    exists s',
      standby fuel enable s = Spin s' /\
      trace s' =
        trace s ++
        BitsWrite FXOS8700_REGISTER_CTRL_REG1 1 0 (if enable then 0 else 1)
          :: polls fuel.
Proof.
  intros Hs Hdev fuel.
  set (v := if enable then 0 else 1).
  set (s1 := mkState (drv s)
               (snd (bits_write E FXOS8700_REGISTER_CTRL_REG1 1 0 v (hw s)))
               (trace s ++ [BitsWrite FXOS8700_REGISTER_CTRL_REG1 1 0 v])).
  destruct (poll_spins enable fuel Hdev s1 Hs) as (s' & Hrun & _ & Htr).
  exists s'. split.
  - unfold standby. destruct enable; cbn; unfold M_bind at 1;
      unfold RegisterBits_write; rewrite (through_dev_bound _ _ s Hs);
      exact Hrun.
  - rewrite Htr. subst s1. cbn [trace]. rewrite <- app_assoc. reflexivity.
Qed.

(** The bench device with the system-status register stuck at WAKE, asked
    to enter standby. *)
Lemma standby_blocks_forever_witness :
  i2c_dev (drv (Bench.start (Some WAKE) Bench.begun Bench.world0)) <> None /\
  sysmod_always (E := Bench.env (Some WAKE)) (negb true) /\
  exists s',
    standby 3 true (Bench.start (Some WAKE) Bench.begun Bench.world0) = Spin s' /\
    trace s' =
      [] ++ BitsWrite FXOS8700_REGISTER_CTRL_REG1 1 0 0 :: polls 3.
Proof.
  assert (H1 : i2c_dev (drv (Bench.start (Some WAKE) Bench.begun Bench.world0))
               <> None) by (simpl; discriminate).
  assert (H2 : sysmod_always (E := Bench.env (Some WAKE)) (negb true))
    by (intros w; reflexivity).
  split; [exact H1 | split; [exact H2 |]].
  exact (standby_blocks_forever true
           (Bench.start (Some WAKE) Bench.begun Bench.world0) H1 H2 3).
Defined.

(** ** Rate selection *)

Lemma search_odr_none (mode : fxos8700SensorMode_t) (rate : fxos8700ODR_t) :
  ~ In rate (available_odrs mode) ->
  search_odr 8 0 (available_odrs mode) rate = None.
Proof.
  intros H.
  destruct mode, rate; try reflexivity; exfalso; apply H; simpl; tauto.
Qed.

Lemma search_odr_some (mode : fxos8700SensorMode_t) (rate : fxos8700ODR_t) :
  In rate (available_odrs mode) ->
  exists odr, search_odr 8 0 (available_odrs mode) rate = Some odr.
Proof.
  intros H.
  destruct mode, rate; simpl in H;
    try (eexists; reflexivity);
    exfalso; repeat (destruct H as [H | H]; [discriminate |]); exact H.
Qed.

(** C3: a rate that is not in the table of the current sensor mode is
    rejected silently.  [setOutputDataRate] returns with the whole state as
    it was: the stored rate (and every other field) unchanged, the world
    untouched and nothing added to the trace, so neither a read nor a write
    reached the device. *)
Theorem setOutputDataRate_illegal_is_noop {E : Env} (fuel : nat)
    (rate : fxos8700ODR_t) (s : State E) :
  ~ In rate (available_odrs (_mode (drv s))) ->
  setOutputDataRate fuel rate s = Ret tt s.
Proof.
  intros H. unfold setOutputDataRate. cbn [bind Monad_M].
  unfold M_bind, get_drv. rewrite (search_odr_none _ _ H). reflexivity.
Qed.

(** 800 Hz asked for in hybrid mode. *)
Lemma setOutputDataRate_illegal_is_noop_witness :
  ~ In ODR_800HZ
      (available_odrs
         (_mode (drv (Bench.start None Bench.begun Bench.world0)))) /\
  setOutputDataRate 3 ODR_800HZ (Bench.start None Bench.begun Bench.world0)
  = Ret tt (Bench.start None Bench.begun Bench.world0).
Proof.
  assert (H : ~ In ODR_800HZ
                (available_odrs
                   (_mode (drv (Bench.start None Bench.begun Bench.world0))))).
  { simpl. intros [A | [A | [A | [A | [A | [A | [A | [A | []]]]]]]]];
      discriminate. }
  split; [exact H |].
  exact (setOutputDataRate_illegal_is_noop 3 ODR_800HZ
           (Bench.start None Bench.begun Bench.world0) H).
Defined.

(** ** Initialisation *)

(** C8: when the identity register answers anything but 0xC7, [begin]
    returns false right after reading it.  The trace then holds the bus
    handshake and the identity read only, so none of the reset and
    configuration writes of [initialize] was made, and the driver keeps every
    field it had (configuration and raw samples), the freshly bound device
    pointer apart. *)
Theorem begin_wrong_identity {E : Env} (fuel : nat) (addr : Z) (s : State E)
    (w1 w2 : world E) (id : Z) :
  i2c_begin E addr (hw s) = (true, w1) ->
  register_read E FXOS8700_REGISTER_WHO_AM_I w1 = (id, w2) ->
  id <> FXOS8700_ID ->
  begin fuel addr s =
    Ret false
      (mkState (set_i2c_dev (Some addr) (drv s)) w2
         (trace s ++ [I2CBegin addr; RegisterRead FXOS8700_REGISTER_WHO_AM_I])).
Proof.
  intros Hb Hr Hid.
  unfold begin, Register_read, through_dev, call, update.
  cbn [bind ret Monad_M]. unfold M_bind.
  cbn [drv hw trace set_i2c_dev i2c_dev]. rewrite Hb.
  cbn [fst snd negb drv hw trace set_i2c_dev i2c_dev]. rewrite Hr.
  cbn [fst snd].
  destruct (Z.eqb_spec id FXOS8700_ID) as [Heq | _]; [contradiction |].
  cbn [negb]. unfold M_ret. rewrite <- app_assoc. reflexivity.
Qed.

(** A chip answering 0xC4 at the address. *)
Lemma begin_wrong_identity_witness :
  i2c_begin (Bench.env None) 0x1F Bench.stranger
  = (true, Bench.tick 1 Bench.stranger) /\
  register_read (Bench.env None) FXOS8700_REGISTER_WHO_AM_I
    (Bench.tick 1 Bench.stranger)
  = (0xC4, Bench.tick 1 (Bench.tick 1 Bench.stranger)) /\
  0xC4 <> FXOS8700_ID /\
  begin 3 0x1F (Bench.start None Bench.fresh Bench.stranger) =
    Ret false
      (mkState (E := Bench.env None)
         (set_i2c_dev (Some 0x1F) Bench.fresh)
         (Bench.tick 1 (Bench.tick 1 Bench.stranger))
         ([] ++ [I2CBegin 0x1F; RegisterRead FXOS8700_REGISTER_WHO_AM_I])).
Proof.
  assert (H1 : i2c_begin (Bench.env None) 0x1F Bench.stranger
               = (true, Bench.tick 1 Bench.stranger)) by reflexivity.
  assert (H2 : register_read (Bench.env None) FXOS8700_REGISTER_WHO_AM_I
                 (Bench.tick 1 Bench.stranger)
               = (0xC4, Bench.tick 1 (Bench.tick 1 Bench.stranger)))
    by reflexivity.
  assert (H3 : 0xC4 <> FXOS8700_ID) by (vm_compute; discriminate).
  split; [exact H1 | split; [exact H2 | split; [exact H3 |]]].
  exact (begin_wrong_identity 3 0x1F
           (Bench.start None Bench.fresh Bench.stranger) _ _ _ H1 H2 H3).
Defined.

(** ** Reading events *)

Section Reading.

Context {E : Env}.

(** The combined read, step by step, once the device pointer is bound. *)
Lemma getEvent_bound (accelEvent magEvent : option sensors_event_t)
    (s : State E) :
  i2c_dev (drv s) <> None ->
  let r := write_then_read E [Byte.x00] 13 (hw s) in
  let buffer := snd (fst r) in
  let t := millis E (snd r) in
  let ts := uint32 (fst t) in
  let d1 := match accelEvent with
            | Some _ => snd (fill_accel E buffer ts (drv s))
            | None => drv s
            end in
  let d2 := match magEvent with
            | Some _ => snd (fill_mag E buffer ts d1)
            | None => d1
            end in
  getEvent accelEvent magEvent s =
    Ret (true,
         match accelEvent with
         | Some _ => Some (fst (fill_accel E buffer ts (drv s)))
         | None => None
         end,
         match magEvent with
         | Some _ => Some (fst (fill_mag E buffer ts d1))
         | None => None
         end)
      (mkState d2 (snd t)
         (trace s ++ [WriteThenRead [Byte.x00] 13; Millis])).
Proof.
  intros Hs. cbv zeta. unfold getEvent. cbn [bind Monad_M].
  unfold M_bind at 1. unfold I2CDevice_write_then_read.
  rewrite (through_dev_bound _ _ s Hs).
  unfold M_bind at 1. unfold Arduino_millis at 1, call at 1.
  cbn [drv hw trace]. rewrite <- app_assoc. cbn [app].
  destruct accelEvent, magEvent; reflexivity.
Qed.

(** With a null device pointer the combined read dereferences it. *)
Lemma getEvent_unbound (accelEvent magEvent : option sensors_event_t)
    (s : State E) :
  i2c_dev (drv s) = None -> getEvent accelEvent magEvent s = Fault s.
Proof.
  intros Hs. unfold getEvent. cbn [bind Monad_M]. unfold M_bind at 1.
  unfold I2CDevice_write_then_read, through_dev. rewrite Hs. reflexivity.
Qed.

(** The result of the bus transaction plays no part in the value returned. *)
Lemma getEvent_returns_true (accelEvent magEvent : option sensors_event_t)
    (s : State E) :
  i2c_dev (drv s) <> None ->
  exists a m s', getEvent accelEvent magEvent s = Ret (true, a, m) s'.
Proof.
  intros Hs. rewrite (getEvent_bound _ _ s Hs). eauto.
Qed.

End Reading.

(** C1 (the code departs from the claim): on the bench bus with every
    transaction failing, [write_then_read] answers false and the combined
    read still returns true. *)
Theorem getEvent_true_on_failed_transaction :
  fst (fst (write_then_read (Bench.env None) [Byte.x00] 13 Bench.dead)) = false /\
  exists a m s',
    getEvent (Some zeroed_event) (Some zeroed_event)
      (Bench.start None Bench.begun Bench.dead)
    = Ret (true, Some a, Some m) s'.
Proof.
  split; [reflexivity |].
  rewrite getEvent_bound by (simpl; discriminate).
  do 3 eexists. reflexivity.
Qed.

(** C10: the single-argument [getEvent] by sensor mode.  In hybrid mode it
    returns false and leaves everything as it was: the event record, the
    driver (its raw samples included), the world and the trace, so no bus
    transaction was made.  In accel-only mode it is the combined read with
    the caller's record as the accelerometer half, in mag-only mode with
    the caller's record as the magnetometer half, the local [dummy] taking
    the other half. *)
Theorem getEvent_single_by_mode {E : Env} (dummy ev : sensors_event_t)
    (s : State E) :
  match _mode (drv s) with
  | HYBRID_MODE => getEvent_single dummy ev s = Ret (false, ev) s
  | ACCEL_ONLY_MODE =>
      getEvent_single dummy ev s =
        map_outcome
          (fun r => (fst (fst r),
                     match snd (fst r) with Some e => e | None => ev end))
          (getEvent (Some ev) (Some dummy) s)
  | MAG_ONLY_MODE =>
      getEvent_single dummy ev s =
        map_outcome
          (fun r => (fst (fst r),
                     match snd r with Some e => e | None => ev end))
          (getEvent (Some dummy) (Some ev) s)
  end.
Proof.
  destruct (_mode (drv s)) eqn:Hm;
    unfold getEvent_single; cbn [bind Monad_M];
    unfold M_bind at 1, get_drv; cbv beta iota; rewrite Hm.
  - unfold M_bind at 1.
    destruct (getEvent (Some ev) (Some dummy) s); reflexivity.
  - unfold M_bind at 1.
    destruct (getEvent (Some dummy) (Some ev) s); reflexivity.
  - reflexivity.
Qed.

(** ** What each operation does to the driver fields *)

Section Fields.

Context {E : Env}.

Lemma keeps_bind {A B : Type} (c : M E A) (k : A -> M E B) :
  keeps_drv c -> (forall a, keeps_drv (k a)) -> keeps_drv (bind c k).
Proof.
  intros Hc Hk s b s' H.
  destruct (bind_inv _ _ _ _ _ H) as (a & s1 & H1 & H2).
  rewrite (Hk a _ _ _ H2). exact (Hc _ _ _ H1).
Qed.

Lemma step_bind {A B : Type} (c : M E A) (k : A -> M E B) f :
  keeps_drv c -> (forall a, drv_step (k a) f) -> drv_step (bind c k) f.
Proof.
  intros Hc Hk s b s' H.
  destruct (bind_inv _ _ _ _ _ H) as (a & s1 & H1 & H2).
  rewrite (Hk a _ _ _ H2). f_equal. exact (Hc _ _ _ H1).
Qed.

Lemma keeps_ret {A : Type} (a : A) : keeps_drv (ret a : M E A).
Proof. intros s b s' H. cbn in H. unfold M_ret in H. congruence. Qed.

Lemma keeps_call {A : Type} c (f : world E -> A * world E) :
  keeps_drv (call c f).
Proof. intros s a s' H. unfold call in H. inversion H. reflexivity. Qed.

Lemma keeps_through_dev {A : Type} c (f : world E -> A * world E) :
  keeps_drv (through_dev c f).
Proof.
  intros s a s' H. unfold through_dev in H.
  destruct (i2c_dev (drv s)); [| discriminate].
  exact (keeps_call c f _ _ _ H).
Qed.

Lemma step_update f : drv_step (E := E) (update f) f.
Proof. intros s a s' H. unfold update in H. inversion H. reflexivity. Qed.

Lemma keeps_while (fuel : nat) (cond : M E bool) (body : M E unit) :
  keeps_drv cond -> keeps_drv body -> keeps_drv (while_ fuel cond body).
Proof.
  intros Hc Hb. induction fuel as [| n IH].
  - intros s a s' H. discriminate.
  - cbn [while_]. apply keeps_bind; [exact Hc |].
    intros [|]; [| apply keeps_ret].
    apply keeps_bind; [exact Hb | intros _; exact IH].
Qed.

Lemma keeps_standby (fuel : nat) (enable : bool) :
  keeps_drv (standby (E := E) fuel enable).
Proof.
  unfold standby.
  destruct enable;
    (apply keeps_bind; [apply keeps_through_dev | intros _]);
    (apply keeps_while;
     [apply keeps_bind; [apply keeps_through_dev | intros v; apply keeps_ret]
     | apply keeps_call]).
Qed.

Lemma step_setSensorMode fuel mode :
  drv_step (setSensorMode (E := E) fuel mode) (set_mode mode).
Proof.
  unfold setSensorMode.
  apply step_bind; [apply keeps_standby | intros _].
  apply step_bind; [apply keeps_through_dev | intros _].
  apply step_bind; [apply keeps_through_dev | intros _].
  apply step_bind; [apply keeps_standby | intros _].
  apply step_update.
Qed.

Lemma step_setAccelRange fuel range :
  drv_step (setAccelRange (E := E) fuel range) (set_range range).
Proof.
  unfold setAccelRange.
  apply step_bind; [apply keeps_standby | intros _].
  apply step_bind; [apply keeps_through_dev | intros _].
  apply step_bind.
  { destruct (range_code range =? range_code ACCEL_RANGE_8G);
      [apply keeps_bind; [apply keeps_through_dev | intros _] |];
      apply keeps_ret. }
  intros _.
  apply step_bind; [apply keeps_standby | intros _].
  apply step_update.
Qed.

Lemma step_setMagOversamplingRatio fuel ratio :
  drv_step (setMagOversamplingRatio (E := E) fuel ratio) (set_ratio ratio).
Proof.
  unfold setMagOversamplingRatio.
  apply step_bind; [apply keeps_standby | intros _].
  apply step_bind; [apply keeps_through_dev | intros _].
  apply step_bind; [apply keeps_standby | intros _].
  apply step_update.
Qed.

Lemma search_odr_in (mode : fxos8700SensorMode_t) (rate : fxos8700ODR_t) odr :
  search_odr 8 0 (available_odrs mode) rate = Some odr ->
  In rate (available_odrs mode).
Proof.
  destruct mode, rate; simpl; intros H; try discriminate; tauto.
Qed.

(** [setOutputDataRate] either rejects the rate and keeps the fields, or
    stores a rate of the current mode's table. *)
Lemma setOutputDataRate_fields fuel rate (s s' : State E) :
  setOutputDataRate fuel rate s = Ret tt s' ->
  drv s' = drv s \/
  (In rate (available_odrs (_mode (drv s))) /\ drv s' = set_rate rate (drv s)).
Proof.
  unfold setOutputDataRate. cbn [bind Monad_M].
  unfold M_bind at 1, get_drv. cbv beta iota.
  destruct (search_odr 8 0 (available_odrs (_mode (drv s))) rate) as [odr |] eqn:Hs.
  - intros H. right. split; [exact (search_odr_in _ _ _ Hs) |].
    assert (D : drv_step
                  (standby (E := E) fuel true ;;
                   Register_write FXOS8700_REGISTER_CTRL_REG1 odr ;;
                   standby fuel false ;;
                   update (set_rate rate)) (set_rate rate)).
    { apply step_bind; [apply keeps_standby | intros _].
      apply step_bind; [apply keeps_through_dev | intros _].
      apply step_bind; [apply keeps_standby | intros _].
      apply step_update. }
    exact (D _ _ _ H).
  - intros H. left. cbn in H. unfold M_ret in H. congruence.
Qed.

End Fields.

(** ** The rate/mode relation along configuration sequences *)

Lemma post_begin_rate_legal {E : Env} (s : State E) :
  post_begin s -> rate_legal (drv s).
Proof.
  intros (Hm & _ & Hr & _). unfold rate_legal. rewrite Hm, Hr. simpl. tauto.
Qed.

Lemma run_op_keeps_rate_legal {E : Env} fuel op (s s' : State E) :
  mode_change_keeps_rate op (drv s) ->
  run_op fuel op s = Ret tt s' ->
  rate_legal (drv s) -> rate_legal (drv s').
Proof.
  intros Hg Hrun Hl. unfold rate_legal in *. destruct op as [m | r | g | o];
    cbn [run_op mode_change_keeps_rate] in *.
  - rewrite (step_setSensorMode _ _ _ _ _ Hrun). exact Hg.
  - destruct (setOutputDataRate_fields _ _ _ _ Hrun) as [H | [Hin H]];
      rewrite H; [exact Hl | exact Hin].
  - rewrite (step_setAccelRange _ _ _ _ _ Hrun). exact Hl.
  - rewrite (step_setMagOversamplingRatio _ _ _ _ _ Hrun). exact Hl.
Qed.

(** C2 fails on the code: a mode change does not check the stored rate.
    From the post-begin defaults on the bench device,
    [setOutputDataRate(ODR_25HZ)] (legal in hybrid mode) followed by
    [setSensorMode(ACCEL_ONLY_MODE)] ends with 25 Hz stored in accel-only
    mode, a rate that is not in the accel/mag-only table and that
    [setOutputDataRate] itself refuses in that state; the data-rate bits left
    in CTRL_REG1 are those of position 4 of the table, which is 50 Hz in
    accel-only mode, so that the stored rate is not the one the device runs
    at. *)
Theorem rate_legal_broken_by_mode_change :
  post_begin (Bench.start None Bench.begun Bench.world0) /\
  reachable (Bench.start None Bench.begun Bench.world0)
    [OpSetOutputDataRate ODR_25HZ; OpSetSensorMode ACCEL_ONLY_MODE]
    BenchRuns.after_25hz_then_accel_only /\
  _mode (drv BenchRuns.after_25hz_then_accel_only) = ACCEL_ONLY_MODE /\
  _rate (drv BenchRuns.after_25hz_then_accel_only) = ODR_25HZ /\
  ~ rate_legal (drv BenchRuns.after_25hz_then_accel_only) /\
  setOutputDataRate 1 ODR_25HZ BenchRuns.after_25hz_then_accel_only
  = Ret tt BenchRuns.after_25hz_then_accel_only /\
  getOutputDataRate BenchRuns.after_25hz_then_accel_only
  = Ret ODR_25HZ BenchRuns.after_25hz_then_accel_only /\
  Z.land
    (Bench.peek None FXOS8700_REGISTER_CTRL_REG1
       (hw BenchRuns.after_25hz_then_accel_only)) 0x38 = 0x20 /\
  nth_error ODR_drBits 4 = Some 0x20 /\
  nth_error (available_odrs ACCEL_ONLY_MODE) 4 = Some ODR_50HZ.
Proof.
  split; [repeat split; simpl; discriminate |].
  split.
  { eapply reach_cons with (fuel := 1%nat); [run_step |].
    eapply reach_cons with (fuel := 1%nat); [run_step |].
    apply reach_nil. }
  split; [reflexivity |]. split; [reflexivity |].
  split.
  { unfold rate_legal. simpl. intros H.
    repeat (destruct H as [H | H]; [discriminate |]). exact H. }
  split; [vm_compute; reflexivity |].
  split; [vm_compute; reflexivity |].
  split; [vm_compute; reflexivity |].
  split; reflexivity.
Qed.

(** Where the invariant does hold: the stored rate belongs to the table of
    the stored mode in every state reached from the post-begin defaults by
    configuration operations whose mode changes are each made while the
    stored rate is in the table of the new mode.  The mode change is the
    only operation that can break it. *)
Theorem rate_legal_while_mode_changes_keep_rate {E : Env} (s s' : State E)
    (ops : list ConfigOp) :
  post_begin s -> reachable_keeping_rate s ops s' -> rate_legal (drv s').
Proof.
  intros Hp Hr. apply post_begin_rate_legal in Hp.
  induction Hr as [s | s op fuel s1 ops s2 Hg Hrun _ IH]; [exact Hp |].
  apply IH. exact (run_op_keeps_rate_legal _ _ _ _ Hg Hrun Hp).
Qed.

(** On the bench: to accel-only mode at 100 Hz, then 800 Hz, then the 8 g
    range. *)
Lemma rate_legal_while_mode_changes_keep_rate_witness :
  post_begin (Bench.start None Bench.begun Bench.world0) /\
  reachable_keeping_rate (Bench.start None Bench.begun Bench.world0)
    [OpSetSensorMode ACCEL_ONLY_MODE; OpSetOutputDataRate ODR_800HZ;
     OpSetAccelRange ACCEL_RANGE_8G] BenchRuns.after_accel_only_800hz_8g /\
  _mode (drv BenchRuns.after_accel_only_800hz_8g) = ACCEL_ONLY_MODE /\
  _rate (drv BenchRuns.after_accel_only_800hz_8g) = ODR_800HZ /\
  rate_legal (drv BenchRuns.after_accel_only_800hz_8g).
Proof.
  assert (P : post_begin (Bench.start None Bench.begun Bench.world0)).
  { repeat split; simpl; discriminate. }
  assert (R : reachable_keeping_rate
                (Bench.start None Bench.begun Bench.world0)
                [OpSetSensorMode ACCEL_ONLY_MODE; OpSetOutputDataRate ODR_800HZ;
                 OpSetAccelRange ACCEL_RANGE_8G]
                BenchRuns.after_accel_only_800hz_8g).
  { eapply keep_cons with (fuel := 1%nat); [simpl; tauto | run_step |].
    eapply keep_cons with (fuel := 1%nat); [exact I | run_step |].
    eapply keep_cons with (fuel := 1%nat); [exact I | run_step |].
    apply keep_nil. }
  split; [exact P |]. split; [exact R |].
  split; [reflexivity |]. split; [reflexivity |].
  exact (rate_legal_while_mode_changes_keep_rate _ _ _ P R).
Defined.

(** ** Decoding and scaling of samples *)

Lemma check_range_sound (P : Z -> bool) (n : nat) (v : Z) :
  check_range P n v = true ->
  forall k, v <= k < v + Z.of_nat n -> P k = true.
Proof.
  revert v. induction n as [| n IH]; intros v H k Hk; [lia |].
  cbn [check_range] in H. apply andb_prop in H. destruct H as [Hv Hrest].
  destruct (Z.eq_dec k v) as [-> | Hne]; [exact Hv |].
  apply (IH (v + 1) Hrest). lia.
Qed.

(** Every [int16_t] value survives the conversion to [float] and back. *)
Lemma f32_int16_exact (v : Z) :
  -32768 <= v < 32768 -> F32.trunc (F32.of_Z v) = v.
Proof.
  intros H. apply Z.eqb_eq.
  apply (check_range_sound (fun v => F32.trunc (F32.of_Z v) =? v)
           (Z.to_nat 65536) (-32768)).
  - vm_compute. reflexivity.
  - rewrite Z2Nat.id; lia.
Qed.

Lemma int16_range (v : Z) : -32768 <= int16 v < 32768.
Proof.
  unfold int16. pose proof (Z.mod_pos_bound (v + 32768) 65536). lia.
Qed.

Lemma int16_small (v : Z) : -32768 <= v < 32768 -> int16 v = v.
Proof.
  intros H. unfold int16. rewrite Z.mod_small; lia.
Qed.

Lemma byte_val_range (b : byte) : 0 <= byte_val b < 256.
Proof.
  unfold byte_val. pose proof (Byte.to_N_bounded b). lia.
Qed.

(** The 16-bit word is the two's complement reading of the byte pair. *)
Lemma word16_twos_complement (msb lsb : byte) :
  word16 msb lsb =
    256 * byte_val msb + byte_val lsb
    - (if byte_val msb <? 128 then 0 else 65536).
Proof.
  unfold word16, int16.
  pose proof (byte_val_range msb) as Hm. pose proof (byte_val_range lsb) as Hl.
  assert (Hland : Z.land (Z.shiftl (byte_val msb) 8) (byte_val lsb) = 0).
  { apply Z.bits_inj'. intros n Hn. rewrite Z.land_spec, Z.bits_0.
    destruct (Z.ltb_spec n 8).
    - rewrite Z.shiftl_spec_low by lia. reflexivity.
    - rewrite <- (Z.mod_small (byte_val lsb) (2 ^ 8))
        by (change (2 ^ 8) with 256; lia).
      rewrite Z.mod_pow2_bits_high by lia. apply andb_false_r. }
  assert (Hor : Z.lor (Z.shiftl (byte_val msb) 8) (byte_val lsb)
                = 256 * byte_val msb + byte_val lsb).
  { rewrite <- (Z.lxor_lor _ _ Hland), <- (Z.add_nocarry_lxor _ _ Hland).
    rewrite Z.shiftl_mul_pow2 by lia. change (2 ^ 8) with 256. lia. }
  rewrite Hor.
  destruct (Z.ltb_spec (byte_val msb) 128).
  - rewrite Z.mod_small; lia.
  - replace (256 * byte_val msb + byte_val lsb + 32768)
      with (256 * byte_val msb + byte_val lsb - 32768 + 1 * 65536) by lia.
    rewrite Z.mod_add by lia. rewrite Z.mod_small; lia.
Qed.

Lemma accel_axis_exact (msb lsb : byte) :
  int16 (F32.trunc (F32.of_Z (Z.shiftr (word16 msb lsb) 2)))
  = Z.shiftr (word16 msb lsb) 2.
Proof.
  pose proof (int16_range
                (Z.lor (Z.shiftl (byte_val msb) 8) (byte_val lsb))) as H.
  fold (word16 msb lsb) in H.
  assert (R : -32768 <= Z.shiftr (word16 msb lsb) 2 < 32768).
  { rewrite Z.shiftr_div_pow2 by lia. change (2 ^ 2) with 4.
    pose proof (Z.div_mod (word16 msb lsb) 4).
    pose proof (Z.mod_pos_bound (word16 msb lsb) 4). lia. }
  rewrite (f32_int16_exact _ R). apply int16_small. exact R.
Qed.

Lemma mag_axis_exact (msb lsb : byte) :
  int16 (F32.trunc (F32.of_Z (word16 msb lsb))) = word16 msb lsb.
Proof.
  pose proof (int16_range
                (Z.lor (Z.shiftl (byte_val msb) 8) (byte_val lsb))) as H.
  fold (word16 msb lsb) in H.
  rewrite (f32_int16_exact _ H). apply int16_small. exact H.
Qed.

(** The accelerometer half of a combined read. *)
Lemma getEvent_accel_half {E : Env} (e : sensors_event_t)
    (magEvent : option sensors_event_t) (s : State E) :
  i2c_dev (drv s) <> None ->
  let buffer := snd (fst (write_then_read E [Byte.x00] 13 (hw s))) in
  let x := Z.shiftr (word16 (buf buffer 1) (buf buffer 2)) 2 in
  let y := Z.shiftr (word16 (buf buffer 3) (buf buffer 4)) 2 in
  let z := Z.shiftr (word16 (buf buffer 5) (buf buffer 6)) 2 in
  let k := accel_scale (_range (drv s)) in
  exists a m s',
    getEvent (Some e) magEvent s = Ret (true, Some a, m) s' /\
    accel_raw (drv s') = mkRaw x y z /\
    acceleration a =
      mkVec (F32.mul (F32.of_Z x) k) (F32.mul (F32.of_Z y) k)
        (F32.mul (F32.of_Z z) k).
Proof.
  intros Hs. cbv zeta. rewrite (getEvent_bound _ _ s Hs). cbv zeta.
  do 3 eexists. split; [reflexivity |]. split; [| reflexivity].
  assert (A : forall d buffer ts,
             accel_raw (snd (fill_accel E buffer ts d)) =
             mkRaw (Z.shiftr (word16 (buf buffer 1) (buf buffer 2)) 2)
               (Z.shiftr (word16 (buf buffer 3) (buf buffer 4)) 2)
               (Z.shiftr (word16 (buf buffer 5) (buf buffer 6)) 2)).
  { intros d buffer ts. unfold fill_accel. cbn [snd accel_raw set_accel_raw].
    rewrite !accel_axis_exact. reflexivity. }
  destruct magEvent;
    exact (A (drv s) (snd (fst (write_then_read E [Byte.x00] 13 (hw s))))
             (fst (millis E (snd (write_then_read E [Byte.x00] 13 (hw s)))))).
Qed.

(** C5: with the device bound, the combined read returns, and the raw
    acceleration of each axis it leaves in [accel_raw] is the byte pair
    [(msb << 8) | lsb] converted to [int16_t] and shifted right by 2
    (arithmetically: the floor of a quarter of the two's complement reading
    of the pair); the value stored in the event is that raw value multiplied
    by the scale factor of the active range.  The pair 0x10, 0x00 decodes to
    1024. *)
Theorem getEvent_accel_decode {E : Env} (e : sensors_event_t)
    (magEvent : option sensors_event_t) (s : State E) :
  i2c_dev (drv s) <> None ->
  let buffer := snd (fst (write_then_read E [Byte.x00] 13 (hw s))) in
  let decode (msb lsb : byte) :=
    Z.shiftr (int16 (Z.lor (Z.shiftl (byte_val msb) 8) (byte_val lsb))) 2 in
  let x := decode (buf buffer 1) (buf buffer 2) in
  let y := decode (buf buffer 3) (buf buffer 4) in
  let z := decode (buf buffer 5) (buf buffer 6) in
  let k := accel_scale (_range (drv s)) in
  exists a m s',
    getEvent (Some e) magEvent s = Ret (true, Some a, m) s' /\
    accel_raw (drv s') = mkRaw x y z /\
    acceleration a =
      mkVec (F32.mul (F32.of_Z x) k) (F32.mul (F32.of_Z y) k)
        (F32.mul (F32.of_Z z) k) /\
    (forall msb lsb,
        decode msb lsb =
          (256 * byte_val msb + byte_val lsb
           - (if byte_val msb <? 128 then 0 else 65536)) / 4) /\
    decode x10 x00 = 1024.
Proof.
  intros Hs. cbv zeta.
  destruct (getEvent_accel_half e magEvent s Hs)
    as (a & m & s' & Hrun & Hraw & Hacc).
  exists a, m, s'. split; [exact Hrun |].
  split; [exact Hraw |]. split; [exact Hacc |]. split.
  - intros msb lsb. fold (word16 msb lsb).
    rewrite Z.shiftr_div_pow2 by lia. rewrite word16_twos_complement.
    reflexivity.
  - vm_compute. reflexivity.
Qed.

(** The bench sample: 0x10 0x00, 0xFF 0xFC, 0x00 0x04 at the 2 g range. *)
Lemma getEvent_accel_decode_witness :
  i2c_dev (drv (Bench.start None Bench.begun Bench.world0)) <> None /\
  exists a m s',
    getEvent (Some zeroed_event) None
      (Bench.start None Bench.begun Bench.world0)
    = Ret (true, Some a, m) s' /\
    accel_raw (drv s') = mkRaw 1024 (-1) 1 /\
    acceleration a =
      mkVec (F32.mul (F32.of_Z 1024) (accel_scale ACCEL_RANGE_2G))
        (F32.mul (F32.of_Z (-1)) (accel_scale ACCEL_RANGE_2G))
        (F32.mul (F32.of_Z 1) (accel_scale ACCEL_RANGE_2G)).
Proof.
  assert (H : i2c_dev (drv (Bench.start None Bench.begun Bench.world0))
              <> None) by (simpl; discriminate).
  split; [exact H |].
  destruct (getEvent_accel_decode zeroed_event None
              (Bench.start None Bench.begun Bench.world0) H)
    as (a & m & s' & Hrun & Hraw & Hacc & _).
  exists a, m, s'. split; [exact Hrun |]. split; [exact Hraw | exact Hacc].
Defined.

(** C6: with the device bound, the combined read returns, and the raw
    magnetic value of each axis it leaves in [mag_raw] is the byte pair
    [(msb << 8) | lsb] converted to [int16_t] (the two's complement reading
    of the pair), with no shift; the value stored in the event is that raw
    value multiplied by [MAG_UT_LSB], the [float] nearest to 0.1.  The pair
    0xFF, 0xFF decodes to -1 and scales to the [float] -0.1F, which is within
    2e-9 of -0.1. *)
Theorem getEvent_mag_decode {E : Env} (accelEvent : option sensors_event_t)
    (e : sensors_event_t) (s : State E) :
  i2c_dev (drv s) <> None ->
  let buffer := snd (fst (write_then_read E [Byte.x00] 13 (hw s))) in
  let decode (msb lsb : byte) :=
    int16 (Z.lor (Z.shiftl (byte_val msb) 8) (byte_val lsb)) in
  let x := decode (buf buffer 7) (buf buffer 8) in
  let y := decode (buf buffer 9) (buf buffer 10) in
  let z := decode (buf buffer 11) (buf buffer 12) in
  exists a m s',
    getEvent accelEvent (Some e) s = Ret (true, a, Some m) s' /\
    mag_raw (drv s') = mkRaw x y z /\
    magnetic m =
      mkVec (F32.mul (F32.of_Z x) MAG_UT_LSB) (F32.mul (F32.of_Z y) MAG_UT_LSB)
        (F32.mul (F32.of_Z z) MAG_UT_LSB) /\
    (forall msb lsb,
        decode msb lsb =
          256 * byte_val msb + byte_val lsb
          - (if byte_val msb <? 128 then 0 else 65536)) /\
    (Qabs (F32.to_Q MAG_UT_LSB - (1 # 10)) <= 2 # 1000000000)%Q /\
    decode xff xff = -1 /\
    F32.mul (F32.of_Z (-1)) MAG_UT_LSB = F32.opp (F32.lit 1 10) /\
    (Qabs (F32.to_Q (F32.mul (F32.of_Z (-1)) MAG_UT_LSB) - (- 1 # 10))
     <= 2 # 1000000000)%Q.
Proof.
  intros Hs. cbv zeta. rewrite (getEvent_bound _ _ s Hs). cbv zeta.
  do 3 eexists. split; [reflexivity |].
  split; [| split; [| split; [| split; [| split; [| split]]]]].
  - cbn [drv]. unfold fill_mag at 1. cbn [snd mag_raw set_mag_raw].
    rewrite !mag_axis_exact. reflexivity.
  - reflexivity.
  - intros msb lsb. exact (word16_twos_complement msb lsb).
  - vm_compute. discriminate.
  - vm_compute. reflexivity.
  - vm_compute. reflexivity.
  - vm_compute. discriminate.
Qed.

(** The bench sample: 0xFF 0xFF, 0x00 0x64, 0x80 0x00. *)
Lemma getEvent_mag_decode_witness :
  i2c_dev (drv (Bench.start None Bench.begun Bench.world0)) <> None /\
  exists a m s',
    getEvent None (Some zeroed_event)
      (Bench.start None Bench.begun Bench.world0)
    = Ret (true, a, Some m) s' /\
    mag_raw (drv s') = mkRaw (-1) 100 (-32768) /\
    magnetic m =
      mkVec (F32.opp (F32.lit 1 10)) (F32.of_Z 10)
        (F32.mul (F32.of_Z (-32768)) MAG_UT_LSB).
Proof.
  assert (H : i2c_dev (drv (Bench.start None Bench.begun Bench.world0))
              <> None) by (simpl; discriminate).
  split; [exact H |].
  destruct (getEvent_mag_decode None zeroed_event
              (Bench.start None Bench.begun Bench.world0) H)
    as (a & m & s' & Hrun & Hraw & Hmag & _).
  exists a, m, s'. split; [exact Hrun |]. split; [exact Hraw |].
  rewrite Hmag. vm_compute. reflexivity.
Defined.

(** C7: with the device bound, the combined read returns, and the value it
    stores for each acceleration axis is the raw value times the product,
    in [float] arithmetic, of the documented constant of the active range
    (0.000244F, 0.000488F or 0.000976F) and standard gravity (9.80665F).
    That product is the exact product of the two decimal constants to
    within one part in a million. *)
Theorem getEvent_accel_scale {E : Env} (e : sensors_event_t)
    (magEvent : option sensors_event_t) (s : State E) :
  i2c_dev (drv s) <> None ->
  let range := _range (drv s) in
  let k := F32.mul (documented_literal range) (F32.lit 980665 100000) in
  let exact := (documented_g_per_lsb range * standard_gravity)%Q in
  exists a m s',
    getEvent (Some e) magEvent s = Ret (true, Some a, m) s' /\
    acceleration a =
      mkVec (F32.mul (F32.of_Z (raw_x (accel_raw (drv s')))) k)
        (F32.mul (F32.of_Z (raw_y (accel_raw (drv s')))) k)
        (F32.mul (F32.of_Z (raw_z (accel_raw (drv s')))) k) /\
    (Qabs (F32.to_Q k - exact) <= exact * (1 # 1000000))%Q.
Proof.
  intros Hs. cbv zeta.
  destruct (getEvent_accel_half e magEvent s Hs)
    as (a & m & s' & Hrun & Hraw & Hacc).
  exists a, m, s'. split; [exact Hrun |]. split.
  - rewrite Hacc, Hraw. cbn [raw_x raw_y raw_z].
    destruct (_range (drv s)); reflexivity.
  - destruct (_range (drv s)); vm_compute; discriminate.
Qed.

(** The three factors to seven decimal places, in m/s^2 per LSB. *)
Lemma accel_scale_values :
  (23928 # 10000000 <= F32.to_Q (accel_scale ACCEL_RANGE_2G)
                    <= 23929 # 10000000)%Q /\
  (47856 # 10000000 <= F32.to_Q (accel_scale ACCEL_RANGE_4G)
                    <= 47857 # 10000000)%Q /\
  (95712 # 10000000 <= F32.to_Q (accel_scale ACCEL_RANGE_8G)
                    <= 95713 # 10000000)%Q.
Proof.
  repeat split; vm_compute; discriminate.
Qed.

(** The bench device after a change to the 8 g range. *)
Lemma getEvent_accel_scale_witness :
  i2c_dev (drv BenchRuns.after_accel_only_800hz_8g) <> None /\
  exists a m s',
    getEvent (Some zeroed_event) None BenchRuns.after_accel_only_800hz_8g
    = Ret (true, Some a, m) s' /\
    vec_x (acceleration a) =
      F32.mul (F32.of_Z 1024)
        (F32.mul (F32.lit 976 1000000) (F32.lit 980665 100000)).
Proof.
  assert (H : i2c_dev (drv BenchRuns.after_accel_only_800hz_8g) <> None)
    by (simpl; discriminate).
  split; [exact H |].
  destruct (getEvent_accel_scale zeroed_event None
              BenchRuns.after_accel_only_800hz_8g H)
    as (a & m & s' & Hrun & Hacc & _).
  exists a, m, s'. split; [exact Hrun |].
  destruct (getEvent_accel_half zeroed_event None
              BenchRuns.after_accel_only_800hz_8g H)
    as (a' & m' & s'' & Hrun' & Hraw & _).
  rewrite Hrun in Hrun'. injection Hrun' as _ _ Hs'. subst s''.
  rewrite Hacc, Hraw. reflexivity.
Defined.

(** ** Timestamps *)






(** ** Further properties of the driver *)

Section More.

Context {E : Env}.

Lemma step_compose {A B : Type} (c : M E A) (k : A -> M E B) f g :
  drv_step c f -> (forall a, drv_step (k a) g) ->
  drv_step (bind c k) (fun d => g (f d)).
Proof.
  intros Hc Hk s b s' H.
  destruct (bind_inv _ _ _ _ _ H) as (a & s1 & H1 & H2).
  rewrite (Hk a _ _ _ H2). f_equal. exact (Hc _ _ _ H1).
Qed.

Lemma step_setOutputDataRate fuel rate :
  drv_step (setOutputDataRate (E := E) fuel rate) (rate_update rate).
Proof.
  intros s [] s'. unfold rate_update, setOutputDataRate. cbn [bind Monad_M].
  unfold M_bind at 1, get_drv. cbv beta iota.
  destruct (search_odr 8 0 (available_odrs (_mode (drv s))) rate) as [odr |].
  - intros H.
    assert (D : drv_step
                  (standby (E := E) fuel true ;;
                   Register_write FXOS8700_REGISTER_CTRL_REG1 odr ;;
                   standby fuel false ;;
                   update (set_rate rate)) (set_rate rate)).
    { apply step_bind; [apply keeps_standby | intros _].
      apply step_bind; [apply keeps_through_dev | intros _].
      apply step_bind; [apply keeps_standby | intros _].
      apply step_update. }
    exact (D _ _ _ H).
  - intros H. cbn in H. unfold M_ret in H. congruence.
Qed.

Lemma step_initialize fuel :
  drv_step (initialize (E := E) fuel) initialized.
Proof.
  unfold initialize, initialized.
  eapply (step_compose _ _ (set_range ACCEL_RANGE_2G)
            (fun d => set_mag_raw (mkRaw 0 0 0)
               (set_accel_raw (mkRaw 0 0 0)
                  (set_ratio MAG_OSR_7
                     (rate_update ODR_100HZ (set_mode HYBRID_MODE d))))));
    [apply step_setAccelRange | intros _].
  apply step_bind; [apply keeps_standby | intros _].
  apply step_bind; [apply keeps_through_dev | intros _].
  apply step_bind; [apply keeps_through_dev | intros _].
  apply step_bind; [apply keeps_standby | intros _].
  eapply (step_compose _ _ (set_mode HYBRID_MODE)
            (fun d => set_mag_raw (mkRaw 0 0 0)
               (set_accel_raw (mkRaw 0 0 0)
                  (set_ratio MAG_OSR_7 (rate_update ODR_100HZ d)))));
    [apply step_setSensorMode | intros _].
  eapply (step_compose _ _ (rate_update ODR_100HZ)
            (fun d => set_mag_raw (mkRaw 0 0 0)
               (set_accel_raw (mkRaw 0 0 0) (set_ratio MAG_OSR_7 d))));
    [apply step_setOutputDataRate | intros _].
  eapply (step_compose _ _ (set_ratio MAG_OSR_7)
            (fun d => set_mag_raw (mkRaw 0 0 0) (set_accel_raw (mkRaw 0 0 0) d)));
    [apply step_setMagOversamplingRatio | intros _].
  eapply (step_compose _ _ (set_accel_raw (mkRaw 0 0 0))
            (set_mag_raw (mkRaw 0 0 0)));
    [apply step_update | intros _].
  eapply (step_compose _ _ (set_mag_raw (mkRaw 0 0 0)) (fun d => d));
    [apply step_update | intros _].
  apply keeps_ret.
Qed.

End More.

(** X1: when [begin] returns true the driver holds the defaults: hybrid mode,
    the 2 g range, 100 Hz, oversampling ratio 7, both raw samples cleared,
    the identifiers as constructed and the device bound to the address
    asked for. *)
Theorem begin_true_sets_defaults {E : Env} (fuel : nat) (addr : Z)
    (s s' : State E) :
  begin fuel addr s = Ret true s' ->
  drv s' =
    mkDriver HYBRID_MODE ACCEL_RANGE_2G ODR_100HZ MAG_OSR_7
      (_accelSensorID (drv s)) (_magSensorID (drv s))
      (mkRaw 0 0 0) (mkRaw 0 0 0) (Some addr).
Proof.
  unfold begin. intros H.
  destruct (bind_inv _ _ _ _ _ H) as ([] & s1 & H1 & H2). clear H.
  pose proof (step_update _ _ _ _ H1) as D1. clear H1.
  destruct (bind_inv _ _ _ _ _ H2) as (ok & s2 & H3 & H4). clear H2.
  pose proof (keeps_through_dev _ _ _ _ _ H3) as D2. clear H3.
  destruct ok; cbn [negb] in H4; [| cbn in H4; discriminate].
  destruct (bind_inv _ _ _ _ _ H4) as (id & s3 & H5 & H6). clear H4.
  pose proof (keeps_through_dev _ _ _ _ _ H5) as D3. clear H5.
  destruct (negb (id =? FXOS8700_ID)); [cbn in H6; discriminate |].
  rewrite (step_initialize _ _ _ _ H6), D3, D2, D1.
  reflexivity.
Qed.

(** The bench device answering 0xC7. *)
Lemma begin_true_sets_defaults_witness :
  begin 1 0x1F (Bench.start None Bench.fresh Bench.world0)
  = Ret true BenchRuns.after_begin /\
  drv BenchRuns.after_begin =
    mkDriver HYBRID_MODE ACCEL_RANGE_2G ODR_100HZ MAG_OSR_7 (-1) (-1)
      (mkRaw 0 0 0) (mkRaw 0 0 0) (Some 0x1F).
Proof.
  assert (H : begin 1 0x1F (Bench.start None Bench.fresh Bench.world0)
              = Ret true BenchRuns.after_begin)
    by (vm_compute; reflexivity).
  split; [exact H |].
  exact (begin_true_sets_defaults 1 0x1F _ _ H).
Defined.

(** X2: entering standby and leaving it at once, when both calls return,
    leaves every field of the driver (range, mode, rate, oversampling ratio,
    raw samples) as it was. *)
Theorem standby_round_trip_keeps_fields {E : Env} (fuel : nat)
    (s s' : State E) :
  (standby fuel true ;; standby fuel false) s = Ret tt s' ->
  drv s' = drv s.
Proof.
  intros H.
  assert (K : keeps_drv (standby (E := E) fuel true ;; standby fuel false)).
  { apply keeps_bind; [apply keeps_standby | intros _; apply keeps_standby]. }
  exact (K _ _ _ H).
Qed.

(** The bench device, which follows the active bit. *)
Lemma standby_round_trip_keeps_fields_witness :
  (standby 1 true ;; standby 1 false)
    (Bench.start None Bench.begun Bench.world0)
  = Ret tt BenchRuns.after_standby_round_trip /\
  drv BenchRuns.after_standby_round_trip = Bench.begun.
Proof.
  assert (H : (standby 1 true ;; standby 1 false)
                (Bench.start None Bench.begun Bench.world0)
              = Ret tt BenchRuns.after_standby_round_trip)
    by (vm_compute; reflexivity).
  split; [exact H |].
  exact (standby_round_trip_keeps_fields 1 _ _ H).
Defined.

(** X3: against a device whose system-status register reports the state
    waited for at the first poll, the one made in the world the write of the
    active bit leaves, [standby] returns after that write and one read of
    the register, without sleeping and without changing a driver field. *)
Theorem standby_returns_when_reported {E : Env} (enable : bool) (n : nat)
    (s : State E) :
  i2c_dev (drv s) <> None ->
  (fst (bits_read E FXOS8600_REGISTER_SYSMOD 2 0
          (snd (bits_write E FXOS8700_REGISTER_CTRL_REG1 1 0
                  (if enable then 0 else 1) (hw s))))
   =? STANDBY) = enable ->
  exists s',
    standby (S n) enable s = Ret tt s' /\
    drv s' = drv s /\
    trace s' =
      trace s ++
      [BitsWrite FXOS8700_REGISTER_CTRL_REG1 1 0 (if enable then 0 else 1);
       BitsRead FXOS8600_REGISTER_SYSMOD 2 0].
Proof.
  intros Hs Hdev.
  destruct enable; eexists;
    (split;
     [ unfold standby; cbn [bind ret Monad_M while_]; unfold M_bind at 1;
       unfold RegisterBits_write; rewrite (through_dev_bound _ _ s Hs);
       unfold M_bind at 1; unfold M_bind at 1;
       unfold RegisterBits_read, through_dev, call;
       cbn [drv hw trace]; (destruct (i2c_dev (drv s)); [| contradiction]);
       unfold M_ret at 1; cbn [fst snd]; rewrite Hdev; reflexivity
     | split;
       [ reflexivity | cbn [trace]; rewrite <- app_assoc; reflexivity ] ]).
Qed.

(** The bench device that follows the active bit, asked to enter standby:
    not a device that reports STANDBY whatever happens. *)
Lemma standby_returns_when_reported_witness :
  i2c_dev (drv (Bench.start None Bench.begun Bench.world0)) <> None /\
  (fst (bits_read (Bench.env None) FXOS8600_REGISTER_SYSMOD 2 0
          (snd (bits_write (Bench.env None) FXOS8700_REGISTER_CTRL_REG1 1 0 0
                  Bench.world0)))
   =? STANDBY) = true /\
  ~ sysmod_always (E := Bench.env None) true /\
  exists s',
    standby 1 true (Bench.start None Bench.begun Bench.world0) = Ret tt s' /\
    drv s' = Bench.begun /\
    trace s' =
      [BitsWrite FXOS8700_REGISTER_CTRL_REG1 1 0 0;
       BitsRead FXOS8600_REGISTER_SYSMOD 2 0].
Proof.
  assert (H1 : i2c_dev (drv (Bench.start None Bench.begun Bench.world0))
               <> None) by (simpl; discriminate).
  assert (H2 : (fst (bits_read (Bench.env None) FXOS8600_REGISTER_SYSMOD 2 0
                       (snd (bits_write (Bench.env None)
                               FXOS8700_REGISTER_CTRL_REG1 1 0 0
                               Bench.world0)))
                =? STANDBY) = true) by reflexivity.
  split; [exact H1 | split; [exact H2 |]].
  split.
  { intros A.
    specialize (A (Bench.mkWorld [(FXOS8700_REGISTER_CTRL_REG1, 1)]
                     FXOS8700_ID true Bench.sample 1000)).
    vm_compute in A. discriminate A. }
  destruct (standby_returns_when_reported true 0
              (Bench.start None Bench.begun Bench.world0) H1 H2)
    as (s' & Hrun & Hdrv & Ht).
  exists s'. split; [exact Hrun |]. split; [exact Hdrv | exact Ht].
Defined.

(** X4: the two single-sensor facades read the same 13 bytes and fill their own
    half only: the accelerometer facade leaves [mag_raw] as it was and tags
    its record as acceleration, the magnetometer facade leaves [accel_raw]
    as it was and tags its record as magnetic field; both return true with
    one bus transaction and one clock reading. *)
Theorem facade_reads_fill_their_half {E : Env} (event : sensors_event_t)
    (s : State E) :
  i2c_dev (drv s) <> None ->
  (exists a s',
      Accelerometer_getEvent event s = Ret (true, Some a, None) s' /\
      type a = SENSOR_TYPE_ACCELEROMETER E /\
      sensor_id a = _accelSensorID (drv s) /\
      mag_raw (drv s') = mag_raw (drv s) /\
      trace s' = trace s ++ [WriteThenRead [Byte.x00] 13; Millis]) /\
  (exists m s',
      Magnetometer_getEvent event s = Ret (true, None, Some m) s' /\
      type m = SENSOR_TYPE_MAGNETIC_FIELD E /\
      sensor_id m = _magSensorID (drv s) /\
      accel_raw (drv s') = accel_raw (drv s) /\
      trace s' = trace s ++ [WriteThenRead [Byte.x00] 13; Millis]).
Proof.
  intros Hs. unfold Accelerometer_getEvent, Magnetometer_getEvent.
  rewrite !(getEvent_bound _ _ s Hs). cbv beta iota zeta.
  split; do 2 eexists; repeat (split; [reflexivity |]); reflexivity.
Qed.

(** The bench device after [begin]. *)
Lemma facade_reads_fill_their_half_witness :
  i2c_dev (drv BenchRuns.after_begin) <> None /\
  (exists a s',
      Accelerometer_getEvent zeroed_event BenchRuns.after_begin
      = Ret (true, Some a, None) s' /\
      mag_raw (drv s') = mkRaw 0 0 0) /\
  (exists m s',
      Magnetometer_getEvent zeroed_event BenchRuns.after_begin
      = Ret (true, None, Some m) s' /\
      accel_raw (drv s') = mkRaw 0 0 0).
Proof.
  assert (H : i2c_dev (drv BenchRuns.after_begin) <> None)
    by (simpl; discriminate).
  split; [exact H |].
  destruct (facade_reads_fill_their_half zeroed_event BenchRuns.after_begin H)
    as ((a & s1 & R1 & _ & _ & M1 & _) & (m & s2 & R2 & _ & _ & A2 & _)).
  split.
  - exists a, s1. split; [exact R1 | exact M1].
  - exists m, s2. split; [exact R2 | exact A2].
Defined.

(** ** Sensor descriptors and the events they describe *)

(** Both halves of a combined read with both records asked for. *)
Lemma getEvent_both {E : Env} (e1 e2 : sensors_event_t) (s : State E) :
  i2c_dev (drv s) <> None ->
  let buffer := snd (fst (write_then_read E [Byte.x00] 13 (hw s))) in
  let ax := Z.shiftr (word16 (buf buffer 1) (buf buffer 2)) 2 in
  let ay := Z.shiftr (word16 (buf buffer 3) (buf buffer 4)) 2 in
  let az := Z.shiftr (word16 (buf buffer 5) (buf buffer 6)) 2 in
  let mx := word16 (buf buffer 7) (buf buffer 8) in
  let my := word16 (buf buffer 9) (buf buffer 10) in
  let mz := word16 (buf buffer 11) (buf buffer 12) in
  let k := accel_scale (_range (drv s)) in
  exists a m s',
    getEvent (Some e1) (Some e2) s = Ret (true, Some a, Some m) s' /\
    drv s' = set_mag_raw (mkRaw mx my mz)
               (set_accel_raw (mkRaw ax ay az) (drv s)) /\
    acceleration a =
      mkVec (F32.mul (F32.of_Z ax) k) (F32.mul (F32.of_Z ay) k)
        (F32.mul (F32.of_Z az) k) /\
    magnetic m =
      mkVec (F32.mul (F32.of_Z mx) MAG_UT_LSB) (F32.mul (F32.of_Z my) MAG_UT_LSB)
        (F32.mul (F32.of_Z mz) MAG_UT_LSB) /\
    type a = SENSOR_TYPE_ACCELEROMETER E /\
    type m = SENSOR_TYPE_MAGNETIC_FIELD E /\
    trace s' = trace s ++ [WriteThenRead [Byte.x00] 13; Millis].
Proof.
  intros Hs. cbv zeta. rewrite (getEvent_bound _ _ s Hs). cbv beta iota zeta.
  do 3 eexists. split; [reflexivity |].
  split; [| repeat (split; [reflexivity |]); reflexivity].
  cbn [drv]. unfold fill_mag, fill_accel.
  cbn [snd set_mag_raw set_accel_raw _mode _range _rate _ratio _accelSensorID
         _magSensorID accel_raw mag_raw i2c_dev].
  rewrite !accel_axis_exact, !mag_axis_exact. reflexivity.
Qed.

Lemma accel_raw_range (msb lsb : byte) :
  -8192 <= Z.shiftr (word16 msb lsb) 2 < 8192.
Proof.
  pose proof (int16_range
                (Z.lor (Z.shiftl (byte_val msb) 8) (byte_val lsb))) as H.
  fold (word16 msb lsb) in H.
  rewrite Z.shiftr_div_pow2 by lia. change (2 ^ 2) with 4.
  pose proof (Z.div_mod (word16 msb lsb) 4).
  pose proof (Z.mod_pos_bound (word16 msb lsb) 4). lia.
Qed.

Lemma mag_raw_range (msb lsb : byte) : -32768 <= word16 msb lsb < 32768.
Proof. apply int16_range. Qed.

(** X5: the resolution [getSensor] reports is the factor [getEvent]
    applies.  With the device bound and both records asked for, each
    acceleration component of the event is the raw value left in
    [accel_raw] times the resolution of the accelerometer descriptor, and
    each magnetic component the raw value left in [mag_raw] times the
    resolution of the magnetometer descriptor, for the driver state the read
    started from. *)
Theorem getSensor_resolution_scales_events {E : Env} (name_size : nat)
    (e1 e2 : sensors_event_t) (s : State E) :
  i2c_dev (drv s) <> None ->
  let ra := st_resolution (fst (getSensor E name_size (drv s))) in
  let rm := st_resolution (snd (getSensor E name_size (drv s))) in
  exists a m s',
    getEvent (Some e1) (Some e2) s = Ret (true, Some a, Some m) s' /\
    acceleration a =
      mkVec (F32.mul (F32.of_Z (raw_x (accel_raw (drv s')))) ra)
        (F32.mul (F32.of_Z (raw_y (accel_raw (drv s')))) ra)
        (F32.mul (F32.of_Z (raw_z (accel_raw (drv s')))) ra) /\
    magnetic m =
      mkVec (F32.mul (F32.of_Z (raw_x (mag_raw (drv s')))) rm)
        (F32.mul (F32.of_Z (raw_y (mag_raw (drv s')))) rm)
        (F32.mul (F32.of_Z (raw_z (mag_raw (drv s')))) rm).
Proof.
  intros Hs. cbv zeta.
  destruct (getEvent_both e1 e2 s Hs)
    as (a & m & s' & Hrun & Hdrv & Hacc & Hmag & _).
  exists a, m, s'. split; [exact Hrun |].
  rewrite Hacc, Hmag, Hdrv.
  cbn [accel_raw mag_raw set_mag_raw set_accel_raw raw_x raw_y raw_z].
  unfold getSensor. cbn [fst snd st_resolution].
  destruct (_range (drv s)); split; reflexivity.
Qed.

(** The bench sample at the 8 g range. *)
Lemma getSensor_resolution_scales_events_witness :
  i2c_dev (drv BenchRuns.after_accel_only_800hz_8g) <> None /\
  exists a m s',
    getEvent (Some zeroed_event) (Some zeroed_event)
      BenchRuns.after_accel_only_800hz_8g
    = Ret (true, Some a, Some m) s' /\
    vec_x (acceleration a) =
      F32.mul (F32.of_Z (raw_x (accel_raw (drv s'))))
        (F32.mul ACCEL_MG_LSB_8G SENSORS_GRAVITY_STANDARD).
Proof.
  assert (H : i2c_dev (drv BenchRuns.after_accel_only_800hz_8g) <> None)
    by (simpl; discriminate).
  split; [exact H |].
  destruct (getSensor_resolution_scales_events 12 zeroed_event zeroed_event
              BenchRuns.after_accel_only_800hz_8g H)
    as (a & m & s' & Hrun & Hacc & _).
  exists a, m, s'. split; [exact Hrun |]. rewrite Hacc. reflexivity.
Defined.

Lemma checked_bounds (lo hi : Q) (k : F32.t) (n : nat) (from r : Z) :
  check_range (scaled_within lo hi k) n from = true ->
  from <= r < from + Z.of_nat n ->
  (lo <= F32.to_Q (F32.mul (F32.of_Z r) k) <= hi)%Q.
Proof.
  intros Hc Hr. pose proof (check_range_sound _ _ _ Hc r Hr) as H.
  unfold scaled_within in H. apply andb_prop in H. destruct H as [H1 H2].
  split; apply Qle_bool_iff; assumption.
Qed.

Lemma accel_value_in_bounds (E : Env) (name_size : nat) (d : Driver) (r : Z) :
  -8192 <= r < 8192 ->
  (F32.to_Q (st_min_value (fst (getSensor E name_size d)))
   <= F32.to_Q (F32.mul (F32.of_Z r) (accel_scale (_range d)))
   <= F32.to_Q (st_max_value (fst (getSensor E name_size d))))%Q.
Proof.
  intros Hr.
  assert (R : -8192 <= r < -8192 + Z.of_nat (Z.to_nat 16384))
    by (rewrite Z2Nat.id; lia).
  unfold getSensor. destruct (_range d); cbn [fst snd st_min_value st_max_value];
    (eapply checked_bounds; [| exact R]); vm_compute; reflexivity.
Qed.

(** The bounds of the accelerometer facade contain those of every range. *)
Lemma facade_bounds_contain (E : Env) (name_size : nat) (d : Driver) :
  (F32.to_Q (st_min_value (Accelerometer_getSensor E name_size))
   <= F32.to_Q (st_min_value (fst (getSensor E name_size d))))%Q /\
  (F32.to_Q (st_max_value (fst (getSensor E name_size d)))
   <= F32.to_Q (st_max_value (Accelerometer_getSensor E name_size)))%Q.
Proof.
  unfold getSensor, Accelerometer_getSensor.
  destruct (_range d); cbn [fst snd st_min_value st_max_value];
    split; vm_compute; discriminate.
Qed.

(** X6: no acceleration value leaves the range its descriptor announces.
    With the device bound, every acceleration component [getEvent] stores
    lies between the [min_value] and the [max_value] that [getSensor] reports
    for the driver state the read started from, whatever the 13 bytes read
    and whatever the range; so it also lies within the fixed bounds of the
    accelerometer facade's descriptor. *)
Theorem getEvent_acceleration_within_getSensor_bounds {E : Env}
    (name_size : nat) (e : sensors_event_t)
    (magEvent : option sensors_event_t) (s : State E) :
  i2c_dev (drv s) <> None ->
  exists a m s',
    getEvent (Some e) magEvent s = Ret (true, Some a, m) s' /\
    forall v,
      In v [vec_x (acceleration a); vec_y (acceleration a);
            vec_z (acceleration a)] ->
      (F32.to_Q (st_min_value (fst (getSensor E name_size (drv s))))
       <= F32.to_Q v
       <= F32.to_Q (st_max_value (fst (getSensor E name_size (drv s)))))%Q /\
      (F32.to_Q (st_min_value (Accelerometer_getSensor E name_size))
       <= F32.to_Q v
       <= F32.to_Q (st_max_value (Accelerometer_getSensor E name_size)))%Q.
Proof.
  intros Hs.
  destruct (getEvent_accel_half e magEvent s Hs)
    as (a & m & s' & Hrun & _ & Hacc).
  exists a, m, s'. split; [exact Hrun |].
  intros v Hv. rewrite Hacc in Hv. cbn [vec_x vec_y vec_z] in Hv.
  assert (B : forall r, -8192 <= r < 8192 ->
                v = F32.mul (F32.of_Z r) (accel_scale (_range (drv s))) ->
                (F32.to_Q (st_min_value (fst (getSensor E name_size (drv s))))
                 <= F32.to_Q v
                 <= F32.to_Q (st_max_value (fst (getSensor E name_size (drv s)))))%Q /\
                (F32.to_Q (st_min_value (Accelerometer_getSensor E name_size))
                 <= F32.to_Q v
                 <= F32.to_Q (st_max_value (Accelerometer_getSensor E name_size)))%Q).
  { intros r Hr ->.
    destruct (accel_value_in_bounds E name_size (drv s) r Hr) as [L U].
    destruct (facade_bounds_contain E name_size (drv s)) as [FL FU].
    repeat split; try assumption.
    - eapply Qle_trans; [exact FL | exact L].
    - eapply Qle_trans; [exact U | exact FU]. }
  destruct Hv as [Hv | [Hv | [Hv | []]]]; symmetry in Hv;
    (eapply B; [apply accel_raw_range | exact Hv]).
Qed.

(** The bench sample at the 2 g range: 1024 LSB is about 2.45 m/s^2. *)
Lemma getEvent_acceleration_within_getSensor_bounds_witness :
  i2c_dev (drv (Bench.start None Bench.begun Bench.world0)) <> None /\
  exists a m s',
    getEvent (Some zeroed_event) None
      (Bench.start None Bench.begun Bench.world0)
    = Ret (true, Some a, m) s' /\
    (F32.to_Q (F32.mul (F32.opp (F32.lit 1999 1000)) SENSORS_GRAVITY_STANDARD)
     <= F32.to_Q (vec_x (acceleration a))
     <= F32.to_Q (F32.mul (F32.lit 2 1) SENSORS_GRAVITY_STANDARD))%Q.
Proof.
  assert (H : i2c_dev (drv (Bench.start None Bench.begun Bench.world0))
              <> None) by (simpl; discriminate).
  split; [exact H |].
  destruct (getEvent_acceleration_within_getSensor_bounds 12 zeroed_event None
              (Bench.start None Bench.begun Bench.world0) H)
    as (a & m & s' & Hrun & Hin).
  exists a, m, s'. split; [exact Hrun |].
  exact (proj1 (Hin (vec_x (acceleration a)) (or_introl eq_refl))).
Defined.

Lemma mag_value_within_iff (E : Env) (name_size : nat) (d : Driver) (r : Z) :
  -32768 <= r < 32768 ->
  (F32.to_Q (st_min_value (snd (getSensor E name_size d)))
   <= F32.to_Q (F32.mul (F32.of_Z r) MAG_UT_LSB)
   <= F32.to_Q (st_max_value (snd (getSensor E name_size d))))%Q
  <-> -12000 <= r <= 12000.
Proof.
  intros Hr.
  assert (R : -32768 <= r < -32768 + Z.of_nat (Z.to_nat 65536))
    by (rewrite Z2Nat.id; lia).
  assert (C : check_range
                (scaled_within_iff
                   (F32.to_Q (st_min_value (snd (getSensor E name_size d))))
                   (F32.to_Q (st_max_value (snd (getSensor E name_size d))))
                   MAG_UT_LSB 12000)
                (Z.to_nat 65536) (-32768) = true)
    by (vm_compute; reflexivity).
  pose proof (check_range_sound _ _ _ C r R) as H.
  unfold scaled_within_iff, scaled_within in H.
  apply Bool.eqb_prop in H.
  split.
  - intros [L U].
    apply Qle_bool_iff in L. apply Qle_bool_iff in U.
    rewrite L, U in H. cbn [andb] in H. symmetry in H.
    apply andb_prop in H. lia.
  - intros Hm.
    replace ((- (12000) <=? r) && (r <=? 12000)) with true in H
      by (symmetry; apply andb_true_intro; lia).
    apply andb_prop in H. destruct H as [L U].
    split; apply Qle_bool_iff; assumption.
Qed.

(** The magnetometer half of a combined read. *)
Lemma getEvent_mag_half {E : Env} (accelEvent : option sensors_event_t)
    (e : sensors_event_t) (s : State E) :
  i2c_dev (drv s) <> None ->
  let buffer := snd (fst (write_then_read E [Byte.x00] 13 (hw s))) in
  let x := word16 (buf buffer 7) (buf buffer 8) in
  let y := word16 (buf buffer 9) (buf buffer 10) in
  let z := word16 (buf buffer 11) (buf buffer 12) in
  exists a m s',
    getEvent accelEvent (Some e) s = Ret (true, a, Some m) s' /\
    mag_raw (drv s') = mkRaw x y z /\
    magnetic m =
      mkVec (F32.mul (F32.of_Z x) MAG_UT_LSB) (F32.mul (F32.of_Z y) MAG_UT_LSB)
        (F32.mul (F32.of_Z z) MAG_UT_LSB).
Proof.
  intros Hs. cbv zeta. rewrite (getEvent_bound _ _ s Hs). cbv zeta.
  do 3 eexists. split; [reflexivity |]. split; [| reflexivity].
  cbn [drv]. unfold fill_mag at 1. cbn [snd mag_raw set_mag_raw].
  rewrite !mag_axis_exact. reflexivity.
Qed.

(** X7: magnetic values are not clamped to the range the descriptor
    announces.  With the device bound, a magnetic component [getEvent]
    stores lies between the [min_value] and [max_value] of the magnetometer
    descriptor (-1200 and 1200) exactly when the raw value left in
    [mag_raw] lies between -12000 and 12000; raw values beyond that, which a
    16-bit word can hold, give values outside the announced range. *)
Theorem getEvent_magnetic_within_bounds_iff {E : Env} (name_size : nat)
    (accelEvent : option sensors_event_t) (e : sensors_event_t)
    (s : State E) :
  i2c_dev (drv s) <> None ->
  exists a m s',
    getEvent accelEvent (Some e) s = Ret (true, a, Some m) s' /\
    forall r v,
      In (r, v) [(raw_x (mag_raw (drv s')), vec_x (magnetic m));
                 (raw_y (mag_raw (drv s')), vec_y (magnetic m));
                 (raw_z (mag_raw (drv s')), vec_z (magnetic m))] ->
      ((F32.to_Q (st_min_value (snd (getSensor E name_size (drv s))))
        <= F32.to_Q v
        <= F32.to_Q (st_max_value (snd (getSensor E name_size (drv s)))))%Q
       <-> -12000 <= r <= 12000).
Proof.
  intros Hs.
  destruct (getEvent_mag_half accelEvent e s Hs)
    as (a & m & s' & Hrun & Hraw & Hmag).
  exists a, m, s'. split; [exact Hrun |].
  rewrite Hraw, Hmag. cbn [raw_x raw_y raw_z vec_x vec_y vec_z].
  intros r v Hin.
  destruct Hin as [Hin | [Hin | [Hin | []]]]; injection Hin as <- <-;
    apply mag_value_within_iff; apply mag_raw_range.
Qed.

(** The bench sample: raw -1 is inside, raw -32768 is outside. *)
Lemma getEvent_magnetic_within_bounds_iff_witness :
  i2c_dev (drv (Bench.start None Bench.begun Bench.world0)) <> None /\
  exists a m s',
    getEvent None (Some zeroed_event)
      (Bench.start None Bench.begun Bench.world0)
    = Ret (true, a, Some m) s' /\
    ((F32.to_Q (F32.opp (F32.lit 1200 1))
      <= F32.to_Q (vec_z (magnetic m))
      <= F32.to_Q (F32.lit 1200 1))%Q
     <-> -12000 <= raw_z (mag_raw (drv s')) <= 12000).
Proof.
  assert (H : i2c_dev (drv (Bench.start None Bench.begun Bench.world0))
              <> None) by (simpl; discriminate).
  split; [exact H |].
  destruct (getEvent_magnetic_within_bounds_iff 12 None zeroed_event
              (Bench.start None Bench.begun Bench.world0) H)
    as (a & m & s' & Hrun & Hin).
  exists a, m, s'. split; [exact Hrun |].
  exact (Hin _ _ (or_intror (or_intror (or_introl eq_refl)))).
Defined.

(** ** Descriptor names *)

Lemma fill_name_shape (k : nat) (lit : list byte) :
  fill_name (S k) lit = firstn k (lit ++ repeat x00 k) ++ [x00].
Proof.
  unfold fill_name, strncpy, array_store.
  replace (S k - 1)%nat with k by lia.
  assert (L : length (firstn k (lit ++ repeat x00 k)) = k).
  { rewrite length_firstn, length_app, repeat_length. lia. }
  rewrite firstn_app, L, Nat.sub_diag, firstn_O, app_nil_r.
  rewrite firstn_all2 by (rewrite L; lia).
  f_equal. f_equal.
  rewrite skipn_all2; [reflexivity |].
  rewrite length_app, L, length_skipn, repeat_length. lia.
Qed.

Lemma c_str_padded (lit : list byte) :
  Forall (fun b => byte_val b <> 0) lit ->
  forall k, c_str (firstn k (lit ++ repeat x00 k) ++ [x00]) = firstn k lit.
Proof.
  induction 1 as [| b lit Hb _ IH]; intros k.
  - cbn [app]. destruct k as [| k]; [reflexivity |].
    cbn [repeat firstn app c_str]. reflexivity.
  - destruct k as [| k]; [reflexivity |].
    cbn [app firstn c_str].
    destruct (Z.eqb_spec (byte_val b) 0) as [Hz | _]; [contradiction |].
    f_equal.
    replace (lit ++ repeat x00 (S k)) with ((lit ++ repeat x00 k) ++ [x00]).
    + rewrite firstn_app.
      destruct (Nat.le_gt_cases k (length (lit ++ repeat x00 k))) as [Hle | Hgt].
      * replace (k - length (lit ++ repeat x00 k))%nat with O by lia.
        rewrite firstn_O, app_nil_r. apply IH.
      * rewrite length_app, repeat_length in Hgt. lia.
    + rewrite <- app_assoc. f_equal.
      change [x00] with (repeat x00 1). rewrite <- repeat_app.
      f_equal. lia.
Qed.

(** The names the four descriptor functions write, with their literals. *)
Lemma descriptor_names_filled (E : Env) (name_size : nat) (d : Driver) :
  st_name (fst (getSensor E name_size d)) = fill_name name_size name_FXOS8700 /\
  st_name (snd (getSensor E name_size d)) = fill_name name_size name_FXOS8700 /\
  st_name (getSensor_single E name_size d) = fill_name name_size name_FXOS8700 /\
  st_name (Accelerometer_getSensor E name_size)
  = fill_name name_size name_FXOS8700_A /\
  st_name (Magnetometer_getSensor E name_size)
  = fill_name name_size name_FXOS8700_M.
Proof. repeat split. Qed.

(** X8: the descriptor names never overflow and are always terminated.  For
    a name array of [name_size] bytes, at least one, each of the four
    [getSensor] functions leaves an array of exactly [name_size] bytes whose
    last byte is NUL and whose C string is the literal cut to
    [name_size - 1] characters: the whole literal ("FXOS8700",
    "FXOS8700_A" or "FXOS8700_M") when it is shorter than the array. *)
Theorem getSensor_names_terminated (E : Env) (name_size : nat) (d : Driver) :
  (1 <= name_size)%nat ->
  forall a lit,
    In (a, lit)
      [(st_name (fst (getSensor E name_size d)), name_FXOS8700);
       (st_name (snd (getSensor E name_size d)), name_FXOS8700);
       (st_name (getSensor_single E name_size d), name_FXOS8700);
       (st_name (Accelerometer_getSensor E name_size), name_FXOS8700_A);
       (st_name (Magnetometer_getSensor E name_size), name_FXOS8700_M)] ->
    length a = name_size /\
    nth (name_size - 1) a x01 = x00 /\
    c_str a = firstn (name_size - 1) lit /\
    ((length lit < name_size)%nat -> c_str a = lit).
Proof.
  intros Hn a lit Hin.
  assert (Ha : a = fill_name name_size lit /\
               Forall (fun b => byte_val b <> 0) lit).
  { destruct (descriptor_names_filled E name_size d)
      as (N1 & N2 & N3 & N4 & N5).
    destruct Hin as [H | [H | [H | [H | [H | []]]]]];
      injection H as <- <-; (split; [assumption |]);
      repeat constructor; vm_compute; discriminate. }
  destruct Ha as [-> Hnz].
  destruct name_size as [| k]; [lia |].
  rewrite fill_name_shape. replace (S k - 1)%nat with k by lia.
  assert (L : length (firstn k (lit ++ repeat x00 k)) = k).
  { rewrite length_firstn, length_app, repeat_length. lia. }
  assert (C : c_str (firstn k (lit ++ repeat x00 k) ++ [x00]) = firstn k lit)
    by (apply c_str_padded; exact Hnz).
  split; [rewrite length_app, L; cbn; lia |].
  split; [rewrite app_nth2 by lia; rewrite L, Nat.sub_diag; reflexivity |].
  split; [exact C |].
  intros Hl. rewrite C. apply firstn_all2. lia.
Qed.

(** An array of 12 bytes holds every literal in full. *)
Lemma getSensor_names_terminated_witness :
  (1 <= 12)%nat /\
  c_str (st_name (Accelerometer_getSensor (Bench.env None) 12))
  = name_FXOS8700_A /\
  length (st_name (Accelerometer_getSensor (Bench.env None) 12)) = 12%nat.
Proof.
  assert (H : (1 <= 12)%nat) by lia.
  split; [exact H |].
  destruct (getSensor_names_terminated (Bench.env None) 12 Bench.begun H
              (st_name (Accelerometer_getSensor (Bench.env None) 12))
              name_FXOS8700_A
              (or_intror (or_intror (or_intror (or_introl eq_refl)))))
    as (L & _ & _ & C).
  split; [apply C; vm_compute; lia | exact L].
Defined.

(** ** Traces of returning runs *)

Section Traces.

Context {E : Env}.

Lemma through_dev_ret {A : Type} c (f : world E -> A * world E) s a s' :
  through_dev c f s = Ret a s' -> trace s' = trace s ++ [c].
Proof.
  unfold through_dev, call. destruct (i2c_dev (drv s)); [| discriminate].
  intros H. injection H as _ <-. reflexivity.
Qed.

Lemma call_ret {A : Type} c (f : world E -> A * world E) s a s' :
  call c f s = Ret a s' -> trace s' = trace s ++ [c].
Proof. unfold call. intros H. injection H as _ <-. reflexivity. Qed.

Lemma update_ret f (s : State E) a s' :
  update f s = Ret a s' -> trace s' = trace s.
Proof. unfold update. intros H. injection H as _ <-. reflexivity. Qed.

Lemma ret_ret {A : Type} (x : A) (s : State E) a s' :
  (ret x : M E A) s = Ret a s' -> trace s' = trace s.
Proof. cbn. unfold M_ret. intros H. injection H as _ <-. reflexivity. Qed.

(** A polling loop that returns has slept [k] times, for some [k] below the
    allowance, and polled once more. *)
Lemma poll_returns (again : Z -> bool) (fuel : nat) :
  forall (s s' : State E),
    while_ fuel
      (v <- RegisterBits_read FXOS8600_REGISTER_SYSMOD 2 0 ;; ret (again v))
      (Arduino_delay 10) s = Ret tt s' ->
    exists k, (k < fuel)%nat /\
      trace s' = trace s ++ polls k ++ [BitsRead FXOS8600_REGISTER_SYSMOD 2 0].
Proof.
  induction fuel as [| n IH]; intros s s' H; [discriminate |].
  cbn [while_] in H.
  destruct (bind_inv _ _ _ _ _ H) as (b & s1 & H1 & H2). clear H.
  destruct (bind_inv _ _ _ _ _ H1) as (v & s0 & H3 & H4). clear H1.
  apply through_dev_ret in H3. apply ret_ret in H4.
  destruct b.
  - destruct (bind_inv _ _ _ _ _ H2) as ([] & s2 & H5 & H6). clear H2.
    apply call_ret in H5.
    destruct (IH _ _ H6) as (k & Hk & Ht).
    exists (S k). split; [lia |].
    rewrite Ht, H5, H4, H3. cbn [polls]. rewrite <- !app_assoc. reflexivity.
  - apply ret_ret in H2. exists O. split; [lia |].
    rewrite H2, H4, H3. reflexivity.
Qed.

Lemma standby_returns (fuel : nat) (enable : bool) (s s' : State E) :
  standby fuel enable s = Ret tt s' ->
  exists k, (k < fuel)%nat /\ trace s' = trace s ++ standby_calls enable k.
Proof.
  unfold standby, standby_calls. intros H.
  destruct enable;
    destruct (bind_inv _ _ _ _ _ H) as (b & s1 & H1 & H2); clear H;
    apply through_dev_ret in H1;
    destruct (poll_returns _ fuel _ _ H2) as (k & Hk & Ht);
    exists k; (split; [exact Hk |]);
    rewrite Ht, H1, <- app_assoc; reflexivity.
Qed.

End Traces.

(** The search of [setOutputDataRate] finds the first position of the rate
    in the table of the mode and answers eight times that position. *)
Lemma search_odr_position (mode : fxos8700SensorMode_t) (rate : fxos8700ODR_t) :
  search_odr 8 0 (available_odrs mode) rate =
    option_map (fun i => 8 * Z.of_nat i) (position rate (available_odrs mode)).
Proof. destruct mode, rate; reflexivity. Qed.

(** X9: a [standby] call that returns has written the active bit once
    (0 to enter, 1 to leave), then polled the system mode [k + 1] times with
    a sleep of 10 after each of the first [k] polls, for some [k] below the
    number of polls allowed, and has changed no driver field. *)
Theorem standby_returns_after_polls {E : Env} (fuel : nat) (enable : bool)
    (s s' : State E) :
  standby fuel enable s = Ret tt s' ->
  exists k, (k < fuel)%nat /\
    trace s' = trace s ++ standby_calls enable k /\
    drv s' = drv s.
Proof.
  intros H. destruct (standby_returns _ _ _ _ H) as (k & Hk & Ht).
  exists k. split; [exact Hk |]. split; [exact Ht |].
  exact (keeps_standby fuel enable _ _ _ H).
Qed.

(** Leaving standby on the bench device: no sleep is needed. *)
Lemma standby_returns_after_polls_witness :
  standby 2 false (Bench.start None Bench.begun Bench.world0)
  = Ret tt BenchRuns.after_leaving_standby /\
  exists k, (k < 2)%nat /\
    trace BenchRuns.after_leaving_standby = [] ++ standby_calls false k /\
    drv BenchRuns.after_leaving_standby = Bench.begun.
Proof.
  assert (H : standby 2 false (Bench.start None Bench.begun Bench.world0)
              = Ret tt BenchRuns.after_leaving_standby)
    by (vm_compute; reflexivity).
  split; [exact H |].
  exact (standby_returns_after_polls 2 false _ _ H).
Defined.

(** X10: every register write of a configuration setter is made while the
    device is in standby.  A setter that returns has either rejected the
    rate and left the whole state as it was, or made exactly these calls:
    a returning [standby(true)], its register writes, a returning
    [standby(false)].  The writes are: for the mode, the 2-bit mode field
    and the hybrid bit (1 for hybrid only); for the rate, the whole control
    register 1 with eight times the position of the rate in the table of
    the current mode; for the range, the 2-bit range field, followed by a
    clearing of the low-noise bit for the 8 g range only; for the
    oversampling ratio, its 3-bit field. *)
Theorem setter_writes_are_bracketed_by_standby {E : Env} (fuel : nat)
    (op : ConfigOp) (s s' : State E) :
  run_op fuel op s = Ret tt s' ->
  match config_writes op (drv s) with
  | None => s' = s
  | Some writes =>
      exists k1 k2, (k1 < fuel)%nat /\ (k2 < fuel)%nat /\
        trace s' =
          trace s ++ standby_calls true k1 ++ writes ++ standby_calls false k2
  end.
Proof.
  intros H. destruct op as [m | r | g | o]; cbn [run_op config_writes] in *.
  - unfold setSensorMode in H.
    destruct (bind_inv _ _ _ _ _ H) as ([] & s1 & H1 & H2). clear H.
    destruct (bind_inv _ _ _ _ _ H2) as (b1 & s2 & H3 & H4). clear H2.
    destruct (bind_inv _ _ _ _ _ H4) as (b2 & s3 & H5 & H6). clear H4.
    destruct (bind_inv _ _ _ _ _ H6) as ([] & s4 & H7 & H8). clear H6.
    destruct (standby_returns _ _ _ _ H1) as (k1 & Hk1 & T1).
    destruct (standby_returns _ _ _ _ H7) as (k2 & Hk2 & T2).
    apply through_dev_ret in H3. apply through_dev_ret in H5.
    apply update_ret in H8.
    exists k1, k2. split; [exact Hk1 |]. split; [exact Hk2 |].
    rewrite H8, T2, H5, H3, T1. rewrite <- !app_assoc. cbn [app].
    destruct m; reflexivity.
  - unfold setOutputDataRate in H. cbn [bind Monad_M] in H.
    unfold M_bind at 1, get_drv in H. cbv beta iota in H.
    rewrite search_odr_position in H.
    destruct (position r (available_odrs (_mode (drv s)))) as [i |];
      cbn [option_map] in H.
    + destruct (bind_inv _ _ _ _ _ H) as ([] & s1 & H1 & H2). clear H.
      destruct (bind_inv _ _ _ _ _ H2) as (b1 & s2 & H3 & H4). clear H2.
      destruct (bind_inv _ _ _ _ _ H4) as ([] & s4 & H7 & H8). clear H4.
      destruct (standby_returns _ _ _ _ H1) as (k1 & Hk1 & T1).
      destruct (standby_returns _ _ _ _ H7) as (k2 & Hk2 & T2).
      apply through_dev_ret in H3. apply update_ret in H8.
      exists k1, k2. split; [exact Hk1 |]. split; [exact Hk2 |].
      rewrite H8, T2, H3, T1. rewrite <- !app_assoc. reflexivity.
    + cbn in H. unfold M_ret in H. injection H as <-. reflexivity.
  - unfold setAccelRange in H.
    destruct (bind_inv _ _ _ _ _ H) as ([] & s1 & H1 & H2). clear H.
    destruct (bind_inv _ _ _ _ _ H2) as (b1 & s2 & H3 & H4). clear H2.
    destruct (bind_inv _ _ _ _ _ H4) as ([] & s3 & H5 & H6). clear H4.
    destruct (bind_inv _ _ _ _ _ H6) as ([] & s4 & H7 & H8). clear H6.
    destruct (standby_returns _ _ _ _ H1) as (k1 & Hk1 & T1).
    destruct (standby_returns _ _ _ _ H7) as (k2 & Hk2 & T2).
    apply through_dev_ret in H3. apply update_ret in H8.
    exists k1, k2. split; [exact Hk1 |]. split; [exact Hk2 |].
    rewrite H8, T2.
    destruct g; cbn [range_code Z.eqb] in H5.
    + apply ret_ret in H5. rewrite H5, H3, T1, <- !app_assoc. reflexivity.
    + apply ret_ret in H5. rewrite H5, H3, T1, <- !app_assoc. reflexivity.
    + destruct (bind_inv _ _ _ _ _ H5) as (b2 & s5 & H9 & H10). clear H5.
      apply through_dev_ret in H9. apply ret_ret in H10.
      rewrite H10, H9, H3, T1, <- !app_assoc. reflexivity.
  - unfold setMagOversamplingRatio in H.
    destruct (bind_inv _ _ _ _ _ H) as ([] & s1 & H1 & H2). clear H.
    destruct (bind_inv _ _ _ _ _ H2) as (b1 & s2 & H3 & H4). clear H2.
    destruct (bind_inv _ _ _ _ _ H4) as ([] & s4 & H7 & H8). clear H4.
    destruct (standby_returns _ _ _ _ H1) as (k1 & Hk1 & T1).
    destruct (standby_returns _ _ _ _ H7) as (k2 & Hk2 & T2).
    apply through_dev_ret in H3. apply update_ret in H8.
    exists k1, k2. split; [exact Hk1 |]. split; [exact Hk2 |].
    rewrite H8, T2, H3, T1. rewrite <- !app_assoc. reflexivity.
Qed.

(** The 8 g range asked for on the bench device. *)
Lemma setter_writes_are_bracketed_by_standby_witness :
  run_op 1 (OpSetAccelRange ACCEL_RANGE_8G)
    (Bench.start None Bench.begun Bench.world0)
  = Ret tt BenchRuns.after_8g /\
  exists k1 k2, (k1 < 1)%nat /\ (k2 < 1)%nat /\
    trace BenchRuns.after_8g =
      [] ++ standby_calls true k1
         ++ [BitsWrite FXOS8700_REGISTER_XYZ_DATA_CFG 2 0 2;
             BitsWrite FXOS8700_REGISTER_CTRL_REG1 1 2 0]
         ++ standby_calls false k2.
Proof.
  assert (H : run_op 1 (OpSetAccelRange ACCEL_RANGE_8G)
                (Bench.start None Bench.begun Bench.world0)
              = Ret tt BenchRuns.after_8g)
    by (vm_compute; reflexivity).
  split; [exact H |].
  exact (setter_writes_are_bracketed_by_standby 1
           (OpSetAccelRange ACCEL_RANGE_8G) _ _ H).
Defined.

(** ** Setters and getters *)

Lemma rate_update_membership (rate : fxos8700ODR_t) (d : Driver) :
  rate_update rate d =
    if existsb (odr_eqb rate) (available_odrs (_mode d)) then set_rate rate d
    else d.
Proof.
  unfold rate_update. destruct (_mode d), rate; reflexivity.
Qed.

(** X11: each setter changes its own field and nothing else, and the
    getters read it back.  After a configuration setter has returned, the
    four getters answer the value just set for the field of that setter and
    the former values for the three others; the raw samples, the two
    identifiers and the device pointer are as before.  For the rate the
    value read back is the one asked for when it is in the table of the
    current mode and the former rate otherwise. *)
Theorem setter_then_getters {E : Env} (fuel : nat) (op : ConfigOp)
    (s s' : State E) :
  run_op fuel op s = Ret tt s' ->
  getSensorMode s' =
    Ret (match op with OpSetSensorMode m => m | _ => _mode (drv s) end) s' /\
  getAccelRange s' =
    Ret (match op with OpSetAccelRange g => g | _ => _range (drv s) end) s' /\
  getOutputDataRate s' =
    Ret (match op with
         | OpSetOutputDataRate r =>
             if existsb (odr_eqb r) (available_odrs (_mode (drv s)))
             then r else _rate (drv s)
         | _ => _rate (drv s)
         end) s' /\
  getMagOversamplingRatio s' =
    Ret (match op with
         | OpSetMagOversamplingRatio o => o
         | _ => _ratio (drv s)
         end) s' /\
  accel_raw (drv s') = accel_raw (drv s) /\
  mag_raw (drv s') = mag_raw (drv s) /\
  _accelSensorID (drv s') = _accelSensorID (drv s) /\
  _magSensorID (drv s') = _magSensorID (drv s) /\
  i2c_dev (drv s') = i2c_dev (drv s).
Proof.
  intros H.
  assert (D : drv s' = apply_op op (drv s)).
  { destruct op as [m | r | g | o]; cbn [run_op apply_op] in *.
    - exact (step_setSensorMode _ _ _ _ _ H).
    - rewrite <- rate_update_membership.
      exact (step_setOutputDataRate _ _ _ _ _ H).
    - exact (step_setAccelRange _ _ _ _ _ H).
    - exact (step_setMagOversamplingRatio _ _ _ _ _ H). }
  unfold getSensorMode, getAccelRange, getOutputDataRate,
    getMagOversamplingRatio.
  cbn [bind ret Monad_M]. unfold M_bind, get_drv, M_ret. rewrite D.
  destruct op as [m | r | g | o]; cbn [apply_op];
    try destruct (existsb (odr_eqb r) (available_odrs (_mode (drv s))));
    repeat split.
Qed.

(** On the bench device: the 8 g range is read back. *)
Lemma setter_then_getters_witness :
  run_op 1 (OpSetAccelRange ACCEL_RANGE_8G)
    (Bench.start None Bench.begun Bench.world0)
  = Ret tt BenchRuns.after_8g /\
  getAccelRange BenchRuns.after_8g = Ret ACCEL_RANGE_8G BenchRuns.after_8g /\
  getSensorMode BenchRuns.after_8g = Ret HYBRID_MODE BenchRuns.after_8g.
Proof.
  assert (H : run_op 1 (OpSetAccelRange ACCEL_RANGE_8G)
                (Bench.start None Bench.begun Bench.world0)
              = Ret tt BenchRuns.after_8g)
    by (vm_compute; reflexivity).
  split; [exact H |].
  destruct (setter_then_getters 1 (OpSetAccelRange ACCEL_RANGE_8G) _ _ H)
    as (G1 & G2 & _).
  split; [exact G2 | exact G1].
Defined.

(** ** What the driver asks of the bus *)

Section Footprint.

Context {E : Env}.

Lemma sw_ret {A : Type} (a : A) : stays_within (ret a : M E A).
Proof. intros s. exists []. cbn. rewrite app_nil_r. auto. Qed.

Lemma sw_bind {A B : Type} (c : M E A) (k : A -> M E B) :
  stays_within c -> (forall a, stays_within (k a)) -> stays_within (bind c k).
Proof.
  intros Hc Hk s. cbn. unfold M_bind.
  destruct (Hc s) as (l1 & T1 & F1).
  destruct (c s) as [a s1 | s1 | s1]; cbn [out_state] in *.
  - destruct (Hk a s1) as (l2 & T2 & F2).
    exists (l1 ++ l2). split.
    + rewrite T2, T1, app_assoc. reflexivity.
    + rewrite forallb_app, F1, F2. reflexivity.
  - exists l1. auto.
  - exists l1. auto.
Qed.

Lemma sw_call {A : Type} c (f : world E -> A * world E) :
  driver_call c = true -> stays_within (call c f).
Proof.
  intros Hc s. exists [c]. unfold call. cbn. rewrite Hc. auto.
Qed.

Lemma sw_through_dev {A : Type} c (f : world E -> A * world E) :
  driver_call c = true -> stays_within (through_dev c f).
Proof.
  intros Hc s. unfold through_dev.
  destruct (i2c_dev (drv s)); [exact (sw_call c f Hc s) |].
  exists []. cbn. rewrite app_nil_r. auto.
Qed.

Lemma sw_update f : stays_within (update (E := E) f).
Proof. intros s. exists []. cbn. rewrite app_nil_r. auto. Qed.

Lemma sw_get_drv : stays_within (get_drv (E := E)).
Proof. intros s. exists []. cbn. rewrite app_nil_r. auto. Qed.

Lemma sw_while (fuel : nat) (cond : M E bool) (body : M E unit) :
  stays_within cond -> stays_within body ->
  stays_within (while_ fuel cond body).
Proof.
  intros Hc Hb. induction fuel as [| n IH].
  - intros s. exists []. cbn. rewrite app_nil_r. auto.
  - cbn [while_]. apply sw_bind; [exact Hc |].
    intros [|]; [| apply sw_ret].
    apply sw_bind; [exact Hb | intros _; exact IH].
Qed.

Lemma sw_standby (fuel : nat) (enable : bool) :
  stays_within (standby (E := E) fuel enable).
Proof.
  unfold standby.
  destruct enable;
    (apply sw_bind; [apply sw_through_dev; reflexivity | intros _]);
    (apply sw_while;
     [apply sw_bind;
      [apply sw_through_dev; reflexivity | intros v; apply sw_ret]
     | apply sw_call; reflexivity]).
Qed.

Lemma sw_setSensorMode fuel mode :
  stays_within (setSensorMode (E := E) fuel mode).
Proof.
  unfold setSensorMode.
  apply sw_bind; [apply sw_standby | intros _].
  apply sw_bind; [apply sw_through_dev; destruct mode; reflexivity | intros _].
  apply sw_bind; [apply sw_through_dev; destruct mode; reflexivity | intros _].
  apply sw_bind; [apply sw_standby | intros _].
  apply sw_update.
Qed.

Lemma sw_setAccelRange fuel range :
  stays_within (setAccelRange (E := E) fuel range).
Proof.
  unfold setAccelRange.
  apply sw_bind; [apply sw_standby | intros _].
  apply sw_bind; [apply sw_through_dev; destruct range; reflexivity | intros _].
  apply sw_bind.
  { destruct (range_code range =? range_code ACCEL_RANGE_8G);
      [apply sw_bind; [apply sw_through_dev; reflexivity | intros _] |];
      apply sw_ret. }
  intros _.
  apply sw_bind; [apply sw_standby | intros _].
  apply sw_update.
Qed.

Lemma sw_setOutputDataRate fuel rate :
  stays_within (setOutputDataRate (E := E) fuel rate).
Proof.
  unfold setOutputDataRate.
  apply sw_bind; [apply sw_get_drv | intros d].
  destruct (search_odr 8 0 (available_odrs (_mode d)) rate) as [odr |] eqn:Hs;
    [| apply sw_ret].
  assert (Hodr : existsb (Z.eqb odr) ODR_drBits = true).
  { destruct (_mode d), rate; cbn in Hs; try discriminate;
      injection Hs as <-; reflexivity. }
  apply sw_bind; [apply sw_standby | intros _].
  apply sw_bind;
    [apply sw_through_dev; cbn [driver_call]; rewrite Hodr; reflexivity
    | intros _].
  apply sw_bind; [apply sw_standby | intros _].
  apply sw_update.
Qed.

Lemma sw_setMagOversamplingRatio fuel ratio :
  stays_within (setMagOversamplingRatio (E := E) fuel ratio).
Proof.
  unfold setMagOversamplingRatio.
  apply sw_bind; [apply sw_standby | intros _].
  apply sw_bind; [apply sw_through_dev; destruct ratio; reflexivity | intros _].
  apply sw_bind; [apply sw_standby | intros _].
  apply sw_update.
Qed.

Lemma sw_initialize fuel : stays_within (initialize (E := E) fuel).
Proof.
  unfold initialize.
  apply sw_bind; [apply sw_setAccelRange | intros _].
  apply sw_bind; [apply sw_standby | intros _].
  apply sw_bind; [apply sw_through_dev; reflexivity | intros _].
  apply sw_bind; [apply sw_through_dev; reflexivity | intros _].
  apply sw_bind; [apply sw_standby | intros _].
  apply sw_bind; [apply sw_setSensorMode | intros _].
  apply sw_bind; [apply sw_setOutputDataRate | intros _].
  apply sw_bind; [apply sw_setMagOversamplingRatio | intros _].
  apply sw_bind; [apply sw_update | intros _].
  apply sw_bind; [apply sw_update | intros _].
  apply sw_ret.
Qed.

Lemma sw_begin fuel addr : stays_within (begin (E := E) fuel addr).
Proof.
  unfold begin.
  apply sw_bind; [apply sw_update | intros _].
  apply sw_bind; [apply sw_through_dev; reflexivity | intros ok].
  destruct (negb ok); [apply sw_ret |].
  apply sw_bind; [apply sw_through_dev; reflexivity | intros id].
  destruct (negb (id =? FXOS8700_ID)); [apply sw_ret | apply sw_initialize].
Qed.

Lemma sw_getEvent accelEvent magEvent :
  stays_within (getEvent (E := E) accelEvent magEvent).
Proof.
  unfold getEvent.
  apply sw_bind; [apply sw_through_dev; reflexivity | intros r].
  apply sw_bind; [apply sw_call; reflexivity | intros ts].
  apply sw_bind.
  { destruct accelEvent; [| apply sw_ret].
    apply sw_bind; [apply sw_get_drv | intros d].
    apply sw_bind; [apply sw_update | intros _]. apply sw_ret. }
  intros a. apply sw_bind.
  { destruct magEvent; [| apply sw_ret].
    apply sw_bind; [apply sw_get_drv | intros d].
    apply sw_bind; [apply sw_update | intros _]. apply sw_ret. }
  intros m. apply sw_ret.
Qed.

Lemma sw_getEvent_single dummy ev :
  stays_within (getEvent_single (E := E) dummy ev).
Proof.
  unfold getEvent_single.
  apply sw_bind; [apply sw_get_drv | intros d].
  destruct (_mode d).
  - apply sw_bind; [apply sw_getEvent | intros r; apply sw_ret].
  - apply sw_bind; [apply sw_getEvent | intros r; apply sw_ret].
  - apply sw_ret.
Qed.

End Footprint.

(** X12: the driver asks nothing of the bus but what its interface needs.
    Whatever the environment answers, and whether the call returns, is
    still polling or stops on a null device pointer, [begin], the four
    setters, [standby], the combined and the single-argument [getEvent] and
    the two facade reads add to the trace only: the bus handshake, reads of
    the identity register, writes to control register 1 of one of the eight
    data-rate patterns, 2-bit reads of the system mode, writes to seven bit
    fields of five registers with a value that fits the field, 13-byte
    bursts from the status register, clock readings and sleeps of 10. *)
Theorem driver_stays_within_its_calls {E : Env} (fuel : nat) :
  (forall addr, stays_within (begin (E := E) fuel addr)) /\
  (forall op, stays_within (run_op (E := E) fuel op)) /\
  (forall enable, stays_within (standby (E := E) fuel enable)) /\
  (forall a m, stays_within (getEvent (E := E) a m)) /\
  (forall dummy ev, stays_within (getEvent_single (E := E) dummy ev)) /\
  (forall ev, stays_within (Accelerometer_getEvent (E := E) ev)) /\
  (forall ev, stays_within (Magnetometer_getEvent (E := E) ev)).
Proof.
  split; [intros addr; apply sw_begin |].
  split.
  { intros [m | r | g | o]; cbn [run_op];
      [apply sw_setSensorMode | apply sw_setOutputDataRate
      | apply sw_setAccelRange | apply sw_setMagOversamplingRatio]. }
  split; [intros enable; apply sw_standby |].
  split; [intros a m; apply sw_getEvent |].
  split; [intros dummy ev; apply sw_getEvent_single |].
  split; intros ev; apply sw_getEvent.
Qed.

(** ** The result of [begin] *)

Lemma through_dev_ret_value {E : Env} {A : Type} c
    (f : world E -> A * world E) s a s' :
  through_dev c f s = Ret a s' ->
  a = fst (f (hw s)) /\ hw s' = snd (f (hw s)) /\ drv s' = drv s /\
  trace s' = trace s ++ [c].
Proof.
  unfold through_dev, call. destruct (i2c_dev (drv s)); [| discriminate].
  intros H. injection H as <- <-. auto.
Qed.

Lemma initialize_returns_true {E : Env} fuel (s s' : State E) b :
  initialize fuel s = Ret b s' -> b = true.
Proof.
  unfold initialize. intros H.
  do 10 (let x := fresh "x" in let st := fresh "st" in
         let Ha := fresh "Ha" in let Hb := fresh "Hb" in
         destruct (bind_inv _ _ _ _ _ H) as (x & st & Ha & Hb);
         clear H Ha; rename Hb into H).
  cbn in H. unfold M_ret in H. injection H as <- _. reflexivity.
Qed.

(** X13: [begin] returns true only when the handshake succeeded and the
    identity register answered 0xC7.  For every call of [begin] that
    returns, the value returned is the conjunction of the answer of the bus
    handshake and of the test of the identity byte read after it against
    0xC7; when the handshake fails, the identity register is not even read:
    the handshake is the only call made and the driver fields are kept,
    the freshly bound device pointer apart. *)
Theorem begin_result {E : Env} (fuel : nat) (addr : Z) (s s' : State E)
    (b : bool) :
  begin fuel addr s = Ret b s' ->
  let ok := fst (i2c_begin E addr (hw s)) in
  let id := fst (register_read E FXOS8700_REGISTER_WHO_AM_I
                   (snd (i2c_begin E addr (hw s)))) in
  b = ok && (id =? FXOS8700_ID) /\
  (ok = false ->
   trace s' = trace s ++ [I2CBegin addr] /\
   drv s' = set_i2c_dev (Some addr) (drv s)).
Proof.
  unfold begin. intros H. cbv zeta.
  destruct (bind_inv _ _ _ _ _ H) as ([] & s1 & H1 & H2). clear H.
  unfold update in H1. injection H1 as <-.
  destruct (bind_inv _ _ _ _ _ H2) as (ok & s2 & H3 & H4). clear H2.
  apply through_dev_ret_value in H3. cbn [hw drv trace] in H3.
  destruct H3 as (Hok & Hw & Hd & Ht). rewrite <- Hok.
  destruct ok; cbn [negb andb] in *.
  - split; [| discriminate].
    destruct (bind_inv _ _ _ _ _ H4) as (id & s3 & H5 & H6). clear H4.
    apply through_dev_ret_value in H5. destruct H5 as (Hid & _ & _ & _).
    rewrite Hw in Hid. rewrite <- Hid.
    destruct (id =? FXOS8700_ID); cbn [negb] in H6.
    + rewrite (initialize_returns_true _ _ _ _ H6). reflexivity.
    + cbn in H6. unfold M_ret in H6. injection H6 as <- _. reflexivity.
  - cbn in H4. unfold M_ret in H4. injection H4 as <- <-.
    split; [reflexivity |]. intros _. split; [exact Ht | exact Hd].
Qed.

(** The bench bus with every transaction failing. *)
Lemma begin_result_witness :
  begin 1 0x1F (Bench.start None Bench.fresh Bench.dead)
  = Ret false BenchRuns.after_failed_handshake /\
  trace BenchRuns.after_failed_handshake = [] ++ [I2CBegin 0x1F] /\
  drv BenchRuns.after_failed_handshake = set_i2c_dev (Some 0x1F) Bench.fresh.
Proof.
  assert (H : begin 1 0x1F (Bench.start None Bench.fresh Bench.dead)
              = Ret false BenchRuns.after_failed_handshake)
    by (vm_compute; reflexivity).
  split; [exact H |].
  exact (proj2 (begin_result 1 0x1F _ _ _ H) eq_refl).
Defined.

(** ** Which halves a read refreshes *)

(** X14: the combined read always makes its bus transaction and refreshes
    the halves asked for only.  With the device bound, [getEvent] returns
    true after one 13-byte burst and one clock reading whatever the two
    pointers are; [accel_raw] is replaced by the decoded sample when
    [accelEvent] is not null and kept otherwise, [mag_raw] likewise for
    [magEvent]; with both pointers null the bytes read are discarded and the
    driver is unchanged.  No other field changes. *)
Theorem getEvent_refreshes_halves_asked_for {E : Env}
    (accelEvent magEvent : option sensors_event_t) (s : State E) :
  i2c_dev (drv s) <> None ->
  let buffer := snd (fst (write_then_read E [Byte.x00] 13 (hw s))) in
  let accel :=
    mkRaw (Z.shiftr (word16 (buf buffer 1) (buf buffer 2)) 2)
      (Z.shiftr (word16 (buf buffer 3) (buf buffer 4)) 2)
      (Z.shiftr (word16 (buf buffer 5) (buf buffer 6)) 2) in
  let mag :=
    mkRaw (word16 (buf buffer 7) (buf buffer 8))
      (word16 (buf buffer 9) (buf buffer 10))
      (word16 (buf buffer 11) (buf buffer 12)) in
  exists a m s',
    getEvent accelEvent magEvent s = Ret (true, a, m) s' /\
    (a = None <-> accelEvent = None) /\
    (m = None <-> magEvent = None) /\
    drv s' =
      match magEvent with Some _ => set_mag_raw mag | None => fun d => d end
        (match accelEvent with
         | Some _ => set_accel_raw accel
         | None => fun d => d
         end (drv s)) /\
    trace s' = trace s ++ [WriteThenRead [Byte.x00] 13; Millis].
Proof.
  intros Hs. cbv zeta. rewrite (getEvent_bound _ _ s Hs). cbv zeta.
  do 3 eexists. split; [reflexivity |].
  split; [destruct accelEvent; split; intros; (discriminate || reflexivity) |].
  split; [destruct magEvent; split; intros; (discriminate || reflexivity) |].
  split; [| reflexivity].
  cbn [drv].
  destruct accelEvent, magEvent; unfold fill_mag, fill_accel;
    cbn [snd set_mag_raw set_accel_raw _mode _range _rate _ratio
           _accelSensorID _magSensorID accel_raw mag_raw i2c_dev];
    rewrite ?accel_axis_exact, ?mag_axis_exact; reflexivity.
Qed.

(** Both pointers null on the bench device after [begin]. *)
Lemma getEvent_refreshes_halves_asked_for_witness :
  i2c_dev (drv BenchRuns.after_begin) <> None /\
  exists s',
    getEvent None None BenchRuns.after_begin = Ret (true, None, None) s' /\
    drv s' = drv BenchRuns.after_begin /\
    trace s' = trace BenchRuns.after_begin
               ++ [WriteThenRead [Byte.x00] 13; Millis].
Proof.
  assert (H : i2c_dev (drv BenchRuns.after_begin) <> None)
    by (simpl; discriminate).
  split; [exact H |].
  destruct (getEvent_refreshes_halves_asked_for None None
              BenchRuns.after_begin H)
    as (a & m & s' & Hrun & Ha & Hm & Hd & Ht).
  exists s'.
  rewrite (proj2 Ha eq_refl), (proj2 Hm eq_refl) in Hrun.
  split; [exact Hrun |]. split; [exact Hd | exact Ht].
Defined.

(** ** The single-sensor read and the facades *)

(** The single-argument read outside hybrid mode, as a combined read. *)
Lemma getEvent_single_by_mode_eq {E : Env} (dummy ev : sensors_event_t)
    (s : State E) :
  getEvent_single dummy ev s =
    match _mode (drv s) with
    | HYBRID_MODE => Ret (false, ev) s
    | ACCEL_ONLY_MODE =>
        map_outcome
          (fun r => (fst (fst r),
                     match snd (fst r) with Some e => e | None => ev end))
          (getEvent (Some ev) (Some dummy) s)
    | MAG_ONLY_MODE =>
        map_outcome
          (fun r => (fst (fst r),
                     match snd r with Some e => e | None => ev end))
          (getEvent (Some dummy) (Some ev) s)
    end.
Proof.
  destruct (_mode (drv s)) eqn:Hm;
    unfold getEvent_single; cbn [bind Monad_M];
    unfold M_bind at 1, get_drv; cbv beta iota; rewrite Hm.
  - unfold M_bind at 1.
    destruct (getEvent (Some ev) (Some dummy) s); reflexivity.
  - unfold M_bind at 1.
    destruct (getEvent (Some dummy) (Some ev) s); reflexivity.
  - reflexivity.
Qed.

(** X15: outside hybrid mode the single-argument [getEvent] hands back the
    record the facade of the active sensor would, and refreshes both raw
    samples.  With the device bound and the mode accel-only (mag-only), the
    call returns true with exactly the record that the accelerometer
    (magnetometer) facade's [getEvent] writes from the same state, whatever
    the caller's record and the local [dummy] held before; both calls make
    the same bus and clock calls; but where the facade refreshes the raw
    sample of its own sensor only, the single-argument read refreshes
    [accel_raw] and [mag_raw] both, the local record taking the other
    half. *)
Theorem getEvent_single_reads_like_facade {E : Env}
    (dummy ev ev0 : sensors_event_t) (s : State E) :
  i2c_dev (drv s) <> None ->
  _mode (drv s) <> HYBRID_MODE ->
  let buffer := snd (fst (write_then_read E [Byte.x00] 13 (hw s))) in
  let accel :=
    mkRaw (Z.shiftr (word16 (buf buffer 1) (buf buffer 2)) 2)
      (Z.shiftr (word16 (buf buffer 3) (buf buffer 4)) 2)
      (Z.shiftr (word16 (buf buffer 5) (buf buffer 6)) 2) in
  let mag :=
    mkRaw (word16 (buf buffer 7) (buf buffer 8))
      (word16 (buf buffer 9) (buf buffer 10))
      (word16 (buf buffer 11) (buf buffer 12)) in
  exists e s' s'',
    getEvent_single dummy ev s = Ret (true, e) s' /\
    match _mode (drv s) with
    | MAG_ONLY_MODE =>
        Magnetometer_getEvent ev0 s = Ret (true, None, Some e) s'' /\
        drv s'' = set_mag_raw mag (drv s)
    | _ =>
        Accelerometer_getEvent ev0 s = Ret (true, Some e, None) s'' /\
        drv s'' = set_accel_raw accel (drv s)
    end /\
    drv s' = set_mag_raw mag (set_accel_raw accel (drv s)) /\
    hw s' = hw s'' /\
    trace s' = trace s''.
Proof.
  intros Hs Hm. cbv zeta.
  pose proof (getEvent_single_by_mode_eq dummy ev s) as Hsingle.
  unfold Magnetometer_getEvent, Accelerometer_getEvent.
  destruct (_mode (drv s)) eqn:Hmode; [| | contradiction].
  - rewrite Hsingle, !(getEvent_bound _ _ s Hs). cbv zeta.
    cbn [map_outcome fst snd].
    do 3 eexists. split; [reflexivity |].
    split; [split; [reflexivity |] |].
    + cbn [drv]. unfold fill_accel.
      cbn [snd set_accel_raw _mode _range _rate _ratio _accelSensorID
             _magSensorID accel_raw mag_raw i2c_dev].
      rewrite !accel_axis_exact. reflexivity.
    + split; [| split; reflexivity].
      cbn [drv]. unfold fill_mag, fill_accel.
      cbn [snd set_mag_raw set_accel_raw _mode _range _rate _ratio
             _accelSensorID _magSensorID accel_raw mag_raw i2c_dev].
      rewrite !accel_axis_exact, !mag_axis_exact. reflexivity.
  - rewrite Hsingle, !(getEvent_bound _ _ s Hs). cbv zeta.
    cbn [map_outcome fst snd].
    do 3 eexists. split; [reflexivity |].
    split; [split; [reflexivity |] |].
    + cbn [drv]. unfold fill_mag.
      cbn [snd set_mag_raw _mode _range _rate _ratio _accelSensorID
             _magSensorID accel_raw mag_raw i2c_dev].
      rewrite !mag_axis_exact. reflexivity.
    + split; [| split; reflexivity].
      cbn [drv]. unfold fill_mag, fill_accel.
      cbn [snd set_mag_raw set_accel_raw _mode _range _rate _ratio
             _accelSensorID _magSensorID accel_raw mag_raw i2c_dev].
      rewrite !accel_axis_exact, !mag_axis_exact. reflexivity.
Qed.

(** The bench device switched to accel-only mode. *)
Lemma getEvent_single_reads_like_facade_witness :
  i2c_dev (drv BenchRuns.accel_only) <> None /\
  _mode (drv BenchRuns.accel_only) <> HYBRID_MODE /\
  exists e s' s'',
    getEvent_single zeroed_event zeroed_event BenchRuns.accel_only
    = Ret (true, e) s' /\
    Accelerometer_getEvent zeroed_event BenchRuns.accel_only
    = Ret (true, Some e, None) s'' /\
    trace s' = trace s''.
Proof.
  assert (H1 : i2c_dev (drv BenchRuns.accel_only) <> None)
    by (simpl; discriminate).
  assert (H2 : _mode (drv BenchRuns.accel_only) <> HYBRID_MODE)
    by (simpl; discriminate).
  split; [exact H1 |]. split; [exact H2 |].
  destruct (getEvent_single_reads_like_facade zeroed_event zeroed_event
              zeroed_event BenchRuns.accel_only H1 H2)
    as (e & s' & s'' & Hrun & Hfacade & _ & _ & Ht).
  exists e, s', s''.
  split; [exact Hrun |]. split; [exact (proj1 Hfacade) | exact Ht].
Defined.
